(** * mewbot_dev_tools.lint: the output parsers of the lint toolchain

    A shallow embedding of the parsers of [src/mewbot_dev_tools/lint.py]
    (the flake8, mypy, pylint and pydocstyle line parsers, the black stderr
    parser and the two unified-diff scanners) together with the Python string
    primitives they are written with, and the properties of the parsers.

    Conventions.
    - A Python [bytes] value is a [list byte].
    - A Python [str] is the list of its Unicode code points ([list N]):
      [str.strip] and [int] look at code points beyond ASCII, so a list of
      8-bit characters would not do.
    - A Python exception is a value of [exn]; fallible code returns a
      [result].
    - A generator is run to its end: [gen_run] holds the records it yielded,
      in order, and the exception that ended it, if any. *)

From Stdlib Require Import List NArith ZArith Bool Lia.
From Stdlib Require Import Strings.String Strings.Ascii Strings.Byte.
Import ListNotations.

Local Open Scope N_scope.

(** ** Python strings *)

Definition str := list N.

(** An ASCII literal as a Python [str]. *)
Definition u (s : string) : str :=
  List.map N_of_ascii (list_ascii_of_string s).

(** A literal as a Python [bytes], one byte per character. *)
Definition b (s : string) : list byte := list_byte_of_string s.

Fixpoint str_eqb (s t : str) : bool :=
  match s, t with
  | [], [] => true
  | c :: s', d :: t' => (c =? d) && str_eqb s' t'
  | _, _ => false
  end.

(** [c in s] for a one-character needle *)
Fixpoint contains (c : N) (s : str) : bool :=
  match s with
  | [] => false
  | d :: s' => (d =? c) || contains c s'
  end.

(** [s.startswith(p)] *)
Fixpoint startswith (p s : str) : bool :=
  match p, s with
  | [], _ => true
  | c :: p', d :: s' => (c =? d) && startswith p' s'
  | _ :: _, [] => false
  end.

(** [s.split(sep)] for a one-character separator: never empty. *)
Fixpoint split (sep : N) (s : str) : list str :=
  match s with
  | [] => [[]]
  | c :: s' =>
      if c =? sep then [] :: split sep s'
      else match split sep s' with
           | h :: t => (c :: h) :: t
           | [] => [[c]]
           end
  end.

(** [s.split(sep, maxsplit)]: at most [maxsplit] cuts, the rest kept whole. *)
Fixpoint splitn (sep : N) (maxsplit : nat) (s : str) {struct s} : list str :=
  match maxsplit with
  | O => [s]
  | S m =>
      match s with
      | [] => [[]]
      | c :: s' =>
          if c =? sep then [] :: splitn sep m s'
          else match splitn sep maxsplit s' with
               | h :: t => (c :: h) :: t
               | [] => [[c]]
               end
      end
  end.

(** [str.isspace] on one code point (CPython's [Py_UNICODE_ISSPACE]). *)
Definition isspace (c : N) : bool :=
  ((0x09 <=? c) && (c <=? 0x0D)) || ((0x1C <=? c) && (c <=? 0x20))
  || (c =? 0x85) || (c =? 0xA0) || (c =? 0x1680)
  || ((0x2000 <=? c) && (c <=? 0x200A))
  || (c =? 0x2028) || (c =? 0x2029) || (c =? 0x202F) || (c =? 0x205F)
  || (c =? 0x3000).

Fixpoint lstrip (s : str) : str :=
  match s with
  | [] => []
  | c :: s' => if isspace c then lstrip s' else s
  end.

Definition rstrip (s : str) : str := rev (lstrip (rev s)).

(** [s.strip()] *)
Definition strip (s : str) : str := rstrip (lstrip s).

(** [s.rpartition(sep)] for a one-character separator: the parts before and
    after the last [sep]; [("", "", s)] when there is none. *)
Fixpoint rpartition_go (sep : N) (s : str) : option (str * str) :=
  match s with
  | [] => None
  | c :: s' =>
      match rpartition_go sep s' with
      | Some (h, t) => Some (c :: h, t)
      | None => if c =? sep then Some ([], s') else None
      end
  end.

Definition rpartition (sep : N) (s : str) : str * str * str :=
  match rpartition_go sep s with
  | Some (h, t) => (h, [sep], t)
  | None => ([], [], s)
  end.

(** ** Exceptions and results *)

Inductive exn := ValueError | UnicodeDecodeError | StopIteration.

(** [isinstance(e, ValueError)]: [UnicodeDecodeError] derives from
    [ValueError]. *)
Definition is_ValueError (e : exn) : bool :=
  match e with
  | ValueError | UnicodeDecodeError => true
  | StopIteration => false
  end.

Inductive result (A : Type) :=
| Ok (a : A)
| Raise (e : exn).
Arguments Ok {A} a.
Arguments Raise {A} e.

Definition bind {A B} (r : result A) (k : A -> result B) : result B :=
  match r with
  | Ok a => k a
  | Raise e => Raise e
  end.

Notation "x <- r ;; k" := (bind r (fun x => k))
  (at level 61, r at next level, right associativity).
Notation "' p <- r ;; k" := (bind r (fun p => k))
  (at level 61, p pattern, r at next level, right associativity).

Definition cons_ok {A} (a : A) (r : result (list A)) : result (list A) :=
  l <- r ;; Ok (a :: l).

(** ** [bytes.decode("utf-8", errors)] *)

Inductive errors := Strict | Replace.

(** The decoder between two bytes: at a character boundary, or inside a
    multi-byte sequence with [need] continuation bytes outstanding, the bits
    read so far in [acc], and the next byte required in [lo..hi] (the first
    continuation byte has a narrower range after E0, ED, F0 and F4, which
    excludes overlong forms, surrogates and code points above U+10FFFF). *)
Inductive dstate :=
| DStart
| DCont (need : nat) (acc lo hi : N).

Inductive lead :=
| LChar (c : N)
| LBegin (st : dstate)
| LInvalid.

Definition utf8_lead (x : N) : lead :=
  if x <=? 0x7F then LChar x
  else if x <? 0xC2 then LInvalid
  else if x <=? 0xDF then LBegin (DCont 1 (x - 0xC0) 0x80 0xBF)
  else if x =? 0xE0 then LBegin (DCont 2 0 0xA0 0xBF)
  else if x =? 0xED then LBegin (DCont 2 0xD 0x80 0x9F)
  else if x <=? 0xEF then LBegin (DCont 2 (x - 0xE0) 0x80 0xBF)
  else if x =? 0xF0 then LBegin (DCont 3 0 0x90 0xBF)
  else if x <=? 0xF3 then LBegin (DCont 3 (x - 0xF0) 0x80 0xBF)
  else if x =? 0xF4 then LBegin (DCont 3 4 0x80 0x8F)
  else LInvalid.

(** The error handler: ["strict"] raises, ["replace"] puts U+FFFD in place
    of the malformed bytes and goes on. *)
Definition on_error (e : errors) (rest : result str) : result str :=
  match e with
  | Strict => Raise UnicodeDecodeError
  | Replace => cons_ok 0xFFFD rest
  end.

(** A byte read at a character boundary: an ASCII character, the lead byte
    of a longer sequence, or a byte no sequence starts with. [at_start] is
    the decoding of the bytes after it from a boundary, [cont st] their
    decoding from the state [st]. *)
Definition utf8_start (e : errors) (x : N) (at_start : result str)
    (cont : dstate -> result str) : result str :=
  match utf8_lead x with
  | LChar c => cons_ok c at_start
  | LBegin st' => cont st'
  | LInvalid => on_error e at_start
  end.

(** A byte read inside a sequence: a continuation byte in range extends the
    sequence or ends it; any other byte is an error for the bytes read so
    far, and is then read again as the start of the next sequence. *)
Fixpoint utf8_go (e : errors) (st : dstate) (bs : list N) : result str :=
  match bs with
  | [] =>
      match st with
      | DStart => Ok []
      | DCont _ _ _ _ => on_error e (Ok [])
      end
  | x :: bs' =>
      let start :=
        utf8_start e x (utf8_go e DStart bs') (fun st' => utf8_go e st' bs')
      in
      match st with
      | DStart => start
      | DCont need acc lo hi =>
          if (lo <=? x) && (x <=? hi) then
            let acc' := acc * 64 + (x - 0x80) in
            match need with
            | S (S n) => utf8_go e (DCont (S n) acc' 0x80 0xBF) bs'
            | _ => cons_ok acc' (utf8_go e DStart bs')
            end
          else on_error e start
      end
  end.

Definition decode (e : errors) (bs : list byte) : result str :=
  utf8_go e DStart (List.map Byte.to_N bs).

(** ** [int(s)] *)

(** The code points of the digit zero of every decimal-digit block of the
    Unicode character database (version 14.0, the one of CPython 3.11); the
    nine code points after each are its digits one to nine. *)
Definition digit_zeros : list N :=
  [0x30; 0x660; 0x6F0; 0x7C0; 0x966; 0x9E6; 0xA66; 0xAE6; 0xB66; 0xBE6;
   0xC66; 0xCE6; 0xD66; 0xDE6; 0xE50; 0xED0; 0xF20; 0x1040; 0x1090; 0x17E0;
   0x1810; 0x1946; 0x19D0; 0x1A80; 0x1A90; 0x1B50; 0x1BB0; 0x1C40; 0x1C50;
   0xA620; 0xA8D0; 0xA900; 0xA9D0; 0xA9F0; 0xAA50; 0xABF0; 0xFF10; 0x104A0;
   0x10D30; 0x11066; 0x110F0; 0x11136; 0x111D0; 0x112F0; 0x11450; 0x114D0;
   0x11650; 0x116C0; 0x11730; 0x118E0; 0x11950; 0x11C50; 0x11D50; 0x11DA0;
   0x16A60; 0x16AC0; 0x16B50; 0x1D7CE; 0x1D7D8; 0x1D7E2; 0x1D7EC; 0x1D7F6;
   0x1E140; 0x1E2F0; 0x1E950; 0x1FBF0].

(** CPython's [Py_UNICODE_TODECIMAL] *)
Definition todecimal (c : N) : option N :=
  match find (fun z => (z <=? c) && (c <=? z + 9)) digit_zeros with
  | Some z => Some (c - z)
  | None => None
  end.

(** [int] first rewrites its argument to ASCII: a character below 127 is
    kept, any other space becomes a blank, any other decimal digit becomes
    the ASCII digit of its value, and anything else becomes a question mark
    (which no number contains). *)
Definition int_char (c : N) : N :=
  if c <? 127 then c
  else if isspace c then 0x20
  else match todecimal c with
       | Some d => 0x30 + d
       | None => 0x3F
       end.

(** C's [isspace] in the C locale, which the number parser skips with. *)
Definition c_isspace (c : N) : bool :=
  ((0x09 <=? c) && (c <=? 0x0D)) || (c =? 0x20).

Fixpoint skip_space (s : str) : str :=
  match s with
  | [] => []
  | c :: s' => if c_isspace c then skip_space s' else s
  end.

Definition digit_value (c : N) : option Z :=
  if (0x30 <=? c) && (c <=? 0x39) then Some (Z.of_N (c - 0x30)) else None.

(** The digits of a number, single underscores allowed between them; gives
    the value, the number of digits and the unread rest. [prev] tells that
    the character before was an underscore. *)
Fixpoint scan_digits (acc : Z) (count : nat) (prev : bool) (s : str)
  : option (Z * nat * str) :=
  match s with
  | [] => if prev then None else Some (acc, count, [])
  | c :: s' =>
      match digit_value c with
      | Some d => scan_digits (10 * acc + d)%Z (S count) false s'
      | None =>
          if c =? 0x5F then
            if prev then None else scan_digits acc count true s'
          else if prev then None else Some (acc, count, s)
      end
  end.

(** The default of [sys.set_int_max_str_digits]. *)
Definition int_max_str_digits : nat := 4300.

(** [int(s)] in base ten; [ValueError] for anything that is not a number. *)
Definition int (s : str) : result Z :=
  let a := skip_space (List.map int_char s) in
  let '(sign, a) :=
    match a with
    | 0x2B :: a' => (1%Z, a')
    | 0x2D :: a' => ((-1)%Z, a')
    | _ => (1%Z, a)
    end in
  match a with
  | 0x5F :: _ => Raise ValueError
  | _ =>
      match scan_digits 0%Z O false a with
      | Some (v, count, rest) =>
          match count, skip_space rest with
          | O, _ => Raise ValueError
          | _, _ :: _ => Raise ValueError
          | _, [] =>
              if Nat.ltb int_max_str_digits count then Raise ValueError
              else Ok (sign * v)%Z
          end
      | None => Raise ValueError
      end
  end.

(** ** Sequence helpers *)

Definition COLON : N := Eval cbv in N_of_ascii ":".
Definition SPACE : N := Eval cbv in N_of_ascii " ".
Definition COMMA : N := Eval cbv in N_of_ascii ",".
Definition TAB : N := 0x09.
Definition NL : N := 0x0A.

(** Truth value of a [str]: the empty string is false. *)
Definition truthy (s : str) : bool :=
  match s with
  | [] => false
  | _ :: _ => true
  end.

(** Unpacking a list into a fixed number of targets raises [ValueError]
    when the list has another length. *)
Definition unpack2 (l : list str) : result (str * str) :=
  match l with
  | [x; y] => Ok (x, y)
  | _ => Raise ValueError
  end.

Definition unpack4 (l : list str) : result (str * str * str * str) :=
  match l with
  | [x; y; z; w] => Ok (x, y, z, w)
  | _ => Raise ValueError
  end.

Definition unpack6 (l : list str)
  : result (str * str * str * str * str * str) :=
  match l with
  | [x; y; z; w; v; t] => Ok (x, y, z, w, v, t)
  | _ => Raise ValueError
  end.

(** ** Annotations and generators *)

(** Modelled from the spec: the class [Annotation] is declared in
    [toolchain.py], which is not among the sources; the parsers build it from
    seven positional arguments, which are, in order, the seven fields of the
    spec's Diagnostic Record. *)
Record Annotation := mkAnnotation {
  severity : str;
  file : str;
  line : Z;
  column : Z;
  source : str;
  title : str;
  message : str
}.

(** A generator run to its end: what it yielded, and the exception that
    ended it ([None] when it returned). *)
Record gen_run := mkRun {
  yielded : list Annotation;
  raised : option exn
}.

Definition done : gen_run := mkRun [] None.

Definition raise (e : exn) : gen_run := mkRun [] (Some e).

(** [ys] are yielded, then the generator goes on as [g]. *)
Definition yield_then (ys : list Annotation) (g : gen_run) : gen_run :=
  mkRun (ys ++ yielded g) (raised g).

(** [LEVELS = frozenset({"notice", "warning", "error"})] *)
Definition LEVELS : list str := [u "notice"; u "warning"; u "error"].

Definition in_LEVELS (s : str) : bool := existsb (str_eqb s) LEVELS.

(** The body of a [try] whose handler is [except ValueError: pass], inside a
    loop that goes on as [next]: the record is yielded, a [ValueError] is
    swallowed, anything else ends the generator. *)
Definition try_yield (body : result Annotation) (next : gen_run) : gen_run :=
  match body with
  | Ok a => yield_then [a] next
  | Raise e => if is_ValueError e then next else raise e
  end.

(** Reading the process output: [decode] is called outside every [try]. *)
Definition with_lines (e : errors) (output : list byte)
    (loop : list str -> gen_run) : gen_run :=
  match decode e output with
  | Ok text => loop (split NL text)
  | Raise x => raise x
  end.

(** ** The line parsers *)

Module LintToolchain.

(** [lint_flake8], from the output of the tool on. *)
Definition flake8_line (line : str) : result Annotation :=
  '(file, line_no, col, error) <- unpack4 (splitn COLON 3 (strip line)) ;;
  l <- int line_no ;;
  c <- int col ;;
  Ok (mkAnnotation (u "error") file l c (u "flake8") (u "") (strip error)).

Fixpoint lint_flake8_lines (lines : list str) : gen_run :=
  match lines with
  | [] => done
  | line :: rest =>
      if negb (contains COLON line) then lint_flake8_lines rest
      else try_yield (flake8_line line) (lint_flake8_lines rest)
  end.

Definition lint_flake8 (stdout : list byte) : gen_run :=
  with_lines Strict stdout lint_flake8_lines.

(** The level of a mypy line: trimmed, ["note"] read as ["notice"], and
    anything outside [LEVELS] turned into ["error"]. *)
Definition mypy_level (level : str) : str :=
  let level := strip level in
  let level := if str_eqb level (u "note") then u "notice" else level in
  if in_LEVELS level then level else u "error".

(** [lint_mypy], from the output of the tool on. *)
Definition mypy_line (line : str) : result Annotation :=
  '(file, line_no, level, error) <- unpack4 (splitn COLON 3 (strip line)) ;;
  let level := mypy_level level in
  l <- int line_no ;;
  Ok (mkAnnotation level file l 1 (u "mypy") (u "") (strip error)).

Fixpoint lint_mypy_lines (lines : list str) : gen_run :=
  match lines with
  | [] => done
  | line :: rest =>
      if negb (contains COLON line) then lint_mypy_lines rest
      else try_yield (mypy_line line) (lint_mypy_lines rest)
  end.

Definition lint_mypy (stdout : list byte) : gen_run :=
  with_lines Strict stdout lint_mypy_lines.

(** [lint_pylint], from the output of the tool on: decoded with
    [errors="replace"], and the message is not trimmed. *)
Definition pylint_line (line : str) : result Annotation :=
  '(file, line_no, col, error) <- unpack4 (splitn COLON 3 (strip line)) ;;
  l <- int line_no ;;
  c <- int col ;;
  Ok (mkAnnotation (u "error") file l c (u "pylint") (u "") error).

Fixpoint lint_pylint_lines (lines : list str) : gen_run :=
  match lines with
  | [] => done
  | line :: rest =>
      if negb (contains COLON line) then lint_pylint_lines rest
      else try_yield (pylint_line line) (lint_pylint_lines rest)
  end.

Definition lint_pylint (stdout : list byte) : gen_run :=
  with_lines Replace stdout lint_pylint_lines.

(** [lint_pydocstyle], from the output of the tool on. One turn of the
    [for header in lines] loop, on what the iterator [lines] still holds:
    the records yielded in this turn and what the iterator holds after it;
    [None] when the iterator is exhausted and the loop ends. The three
    statements of the [try] run in order: the header is unpacked
    ([ValueError] leaves the iterator alone), [next(lines)] takes the message
    line ([StopIteration] at the end of the input), and [int(line_no)] is
    evaluated last, the message line already taken. *)
Definition pydocstyle_step (lines : list str)
  : option (list Annotation * list str) :=
  match lines with
  | [] => None
  | header :: rest =>
      if negb (contains COLON header) then Some ([], rest)
      else
        match unpack2 (split COLON (hd [] (splitn SPACE 1 header))) with
        | Raise _ => Some ([], rest)
        | Ok (file, line_no) =>
            match rest with
            | [] => Some ([], [])
            | msg :: rest' =>
                let error := strip msg in
                match int line_no with
                | Ok l =>
                    Some ([mkAnnotation (u "error") file l 1
                             (u "pydocstyle") (u "") error], rest')
                | Raise _ => Some ([], rest')
                end
            end
        end
  end.

Fixpoint lint_pydocstyle_lines (lines : list str) : gen_run :=
  match lines with
  | [] => done
  | header :: rest =>
      if negb (contains COLON header) then lint_pydocstyle_lines rest
      else
        match unpack2 (split COLON (hd [] (splitn SPACE 1 header))) with
        | Raise e => if is_ValueError e then lint_pydocstyle_lines rest
                     else raise e
        | Ok (file, line_no) =>
            match rest with
            | [] => done
            | msg :: rest' =>
                let error := strip msg in
                try_yield
                  (l <- int line_no ;;
                   Ok (mkAnnotation (u "error") file l 1
                         (u "pydocstyle") (u "") error))
                  (lint_pydocstyle_lines rest')
            end
        end
  end.

Definition lint_pydocstyle (stdout : list byte) : gen_run :=
  with_lines Strict stdout lint_pydocstyle_lines.

End LintToolchain.

(** ** The black stderr parser *)

(** One line of [lint_black_errors], already trimmed and known to hold a
    colon. Nothing here is inside a [try]. *)
Definition black_error_line (error : str) : result Annotation :=
  '(level, header, message, line, char, info)
     <- unpack6 (splitn COLON 5 error) ;;
  let '(header, _, file) := rpartition SPACE header in
  let level := if in_LEVELS (strip level) then strip level else u "error" in
  l <- int line ;;
  c <- int char ;;
  Ok (mkAnnotation level file l c (u "black") (strip message) (strip info)).

Fixpoint lint_black_errors_lines (errors : list str) : gen_run :=
  match errors with
  | [] => done
  | error :: rest =>
      let error := strip error in
      if negb (truthy error) || negb (contains COLON error)
      then lint_black_errors_lines rest
      else
        match black_error_line error with
        | Ok a => yield_then [a] (lint_black_errors_lines rest)
        | Raise e => raise e
        end
  end.

Definition lint_black_errors (stderr : list byte) : gen_run :=
  with_lines Strict stderr lint_black_errors_lines.

(** ** The diff scanners

    [lint_isort_diffs] and [lint_black_diffs] are the same loop; they differ
    in three string literals only, gathered in [diff_tool]: the tool name and
    the titles of the record yielded at a file header and at a hunk header
    (isort spells the second one differently). *)

Record diff_tool := mkTool {
  tool_name : str;
  title_at_file : str;
  title_at_hunk : str
}.

Definition isort : diff_tool :=
  mkTool (u "isort") (u "isort alteration") (u "isort altteration").

Definition black : diff_tool :=
  mkTool (u "black") (u "Black alteration") (u "Black alteration").

(** The three local variables of the loop. *)
Record diff_state := mkState {
  cur_file : str;
  cur_line : Z;
  buffer : str
}.

Definition diff_init : diff_state := mkState (u "") 0%Z (u "").

(** [if file and buffer: yield Annotation("error", file, line, 1, ...)] *)
Definition flush (name ttl : str) (st : diff_state) : list Annotation :=
  if truthy (cur_file st) && truthy (buffer st)
  then [mkAnnotation (u "error") (cur_file st) (cur_line st) 1 name ttl
          (buffer st)]
  else [].

(** The start line of a hunk header:
    [_, start, _, _ = diff_line.split(" ")], [_line, _ = start.split(",")],
    [abs(int(_line))]. *)
Definition hunk_line (diff_line : str) : result Z :=
  '(_, start, _, _) <- unpack4 (split SPACE diff_line) ;;
  '(_line, _) <- unpack2 (split COMMA start) ;;
  l <- int _line ;;
  Ok (Z.abs l).

(** The file of a file header: [file, _ = diff_line[4:].split("\t")]. *)
Definition header_file (diff_line : str) : result str :=
  '(file, _) <- unpack2 (split TAB (skipn 4 diff_line)) ;;
  Ok file.

(** One turn of the loop on [diff_line]: the records yielded in it, and the
    state after it, or the exception raised (after the yield, if any). *)
Definition diff_step (t : diff_tool) (st : diff_state) (diff_line : str)
  : list Annotation * result diff_state :=
  if startswith (u "+++ ") diff_line then ([], Ok st)
  else if startswith (u "--- ") diff_line then
    (flush (tool_name t) (title_at_file t) st,
     file <- header_file diff_line ;;
     Ok (mkState file (cur_line st) (u "")))
  else if startswith (u "@@") diff_line then
    (flush (tool_name t) (title_at_hunk t) st,
     l <- hunk_line diff_line ;;
     Ok (mkState (cur_file st) l (u "")))
  else ([], Ok (mkState (cur_file st) (cur_line st)
                  (buffer st ++ diff_line ++ [NL]))).

Fixpoint diff_loop (t : diff_tool) (st : diff_state) (lines : list str)
  : gen_run :=
  match lines with
  | [] => done
  | diff_line :: rest =>
      match diff_step t st diff_line with
      | (ys, Ok st') => yield_then ys (diff_loop t st' rest)
      | (ys, Raise e) => yield_then ys (raise e)
      end
  end.

Definition lint_diffs (t : diff_tool) (stdout : list byte) : gen_run :=
  with_lines Strict stdout (diff_loop t diff_init).

Definition lint_isort_diffs : list byte -> gen_run := lint_diffs isort.

Definition lint_black_diffs : list byte -> gen_run := lint_diffs black.

(** ** The toolchain

    [LintToolchain.run], [lint_isort] and [lint_black] are methods of the
    class; they stand here, after the module-level functions they call. The
    tools are run by [run_tool], which belongs to the base class and is not
    among the sources: each method takes the [subprocess.CompletedProcess]
    it would get from it, of which the parsers read two fields. *)

Record CompletedProcess := mkCompleted {
  stdout : list byte;
  stderr : list byte
}.

(** [yield from g1] followed by the rest of the generator, [g2]: when [g1]
    raises, the exception leaves the generator and [g2] never runs. *)
Definition yield_from (g1 g2 : gen_run) : gen_run :=
  match raised g1 with
  | None => yield_then (yielded g1) g2
  | Some _ => g1
  end.

Definition lint_isort (result : CompletedProcess) : gen_run :=
  lint_isort_diffs (stdout result).

Definition lint_black (result : CompletedProcess) : gen_run :=
  yield_from (lint_black_errors (stderr result))
    (lint_black_diffs (stdout result)).

(** What [run_tool] returns to each method of [run], in the order of the
    calls. *)
Record tool_results := mkResults {
  isort_result : CompletedProcess;
  black_result : CompletedProcess;
  flake8_result : CompletedProcess;
  mypy_result : CompletedProcess;
  pylint_result : CompletedProcess;
  pydocstyle_result : CompletedProcess
}.

(** [LintToolchain.run]. The last generator, [lint_bandit], comes from
    [BanditMixin] ([security_analysis.py], not among the sources) and is
    taken as it runs. *)
Definition run (rs : tool_results) (lint_bandit : gen_run) : gen_run :=
  yield_from (lint_isort (isort_result rs))
    (yield_from (lint_black (black_result rs))
       (yield_from (LintToolchain.lint_flake8 (stdout (flake8_result rs)))
          (yield_from (LintToolchain.lint_mypy (stdout (mypy_result rs)))
             (yield_from
                (LintToolchain.lint_pylint (stdout (pylint_result rs)))
                (yield_from
                   (LintToolchain.lint_pydocstyle
                      (stdout (pydocstyle_result rs)))
                   lint_bandit))))).

(** ** [get_module_paths] *)

Section ModulePaths.

(** What the function reads from the interpreter and the file system:
    [sys.path], [os.listdir] (which fails with an [OSError], here any
    value of [os_error], on a path that is no directory), [os.path.isdir]
    and [os.path.join]. *)
Variable os_error : Type.
Variable sys_path : list str.
Variable listdir : str -> os_error + list str.
Variable isdir : str -> bool.
Variable path_join : str -> str -> str.

(** The generator run to its end: the paths yielded, and the error that
    ended it, if any. The modules of a folder are listed and filtered
    before any of them is yielded. *)
Fixpoint get_module_paths (folders : list str)
  : list str * option os_error :=
  match folders with
  | [] => ([], None)
  | path :: rest =>
      if existsb (str_eqb path) sys_path then
        match listdir path with
        | inr modules =>
            let potential_paths := List.map (path_join path) modules in
            let '(ys, e) := get_module_paths rest in
            (filter isdir potential_paths ++ ys, e)
        | inl err => ([], Some err)
        end
      else
        let '(ys, e) := get_module_paths rest in
        (path :: ys, e)
  end.

End ModulePaths.

(** ** Vocabulary of the statements *)

(** The input is well-formed UTF-8: the strict decoder accepts it. *)
Definition valid_utf8 (output : list byte) : Prop :=
  exists text, decode Strict output = Ok text.

(** The output is well-formed UTF-8 and these are its lines. *)
Definition reads (output : list byte) (lines : list str) : Prop :=
  exists text, decode Strict output = Ok text /\ split NL text = lines.

(** A line that starts neither a file block nor a hunk. *)
Definition no_header (l : str) : Prop :=
  startswith (u "--- ") l = false /\ startswith (u "@@") l = false.

(** A line of diff content: it goes to the buffer. *)
Definition content (l : str) : Prop :=
  startswith (u "+++ ") l = false /\ no_header l.

(** A line that makes the scanner flush: a file header or a hunk header. *)
Definition header (l : str) : Prop :=
  startswith (u "+++ ") l = false /\
  (startswith (u "--- ") l = true \/ startswith (u "@@") l = true).

(** The title of the record a header line flushes. *)
Definition flush_title (t : diff_tool) (l : str) : str :=
  if startswith (u "--- ") l then title_at_file t else title_at_hunk t.

(** What a run of content lines adds to the buffer. *)
Definition body_text (body : list str) : str :=
  flat_map (fun l => l ++ [NL]) body.

(** The [for header in lines] loop of [lint_pydocstyle], started on [lines],
    is about to take its next header with [ys] yielded so far and [rest]
    left in the iterator. *)
Inductive loop_reaches (lines : list str)
  : list Annotation -> list str -> Prop :=
| reaches_start : loop_reaches lines [] lines
| reaches_turn ys l1 ys1 l2 :
    loop_reaches lines ys l1 ->
    LintToolchain.pydocstyle_step l1 = Some (ys1, l2) ->
    loop_reaches lines (ys ++ ys1) l2.

(** A decoder state met while decoding: a continuation byte is never an
    ASCII byte, and the bits read so far already make the code point too
    large for ASCII. *)
Definition dstate_ok (st : dstate) : Prop :=
  match st with
  | DStart => True
  | DCont need acc lo hi =>
      0x80 <= lo /\
      match need with
      | O => False
      | S O => 2 <= acc
      | S (S _) => 2 <= acc * 64 + (lo - 0x80)
      end
  end.

(** A header line of a diff, as a test. *)
Definition is_header (l : str) : bool :=
  negb (startswith (u "+++ ") l) &&
  (startswith (u "--- ") l || startswith (u "@@") l).

(** A header line the scanner can parse. *)
Definition parses (l : str) : Prop :=
  (startswith (u "--- ") l = true -> exists f, header_file l = Ok f) /\
  (startswith (u "--- ") l = false -> startswith (u "@@") l = true ->
   exists v, hunk_line l = Ok v).

(** The lines of a pydocstyle report: each header followed by its
    message. *)
Definition report_lines (pairs : list (str * str)) : list str :=
  flat_map (fun p => [fst p; snd p]) pairs.

(** A pydocstyle header that names file [f] and line [v]: its first word
    is [f ++ ":" ++ n] with no other colon, and [n] is a number. *)
Definition names (header f : str) (v : Z) : Prop :=
  exists n,
    split COLON (hd [] (splitn SPACE 1 header)) = [f; n] /\ int n = Ok v.

(** The hunks of one file block, each a header, its start line and its
    lines of content; as lines of a diff, and as the records they give when
    the block is followed by a header that flushes with title [last]: the
    record of a hunk is flushed by the header after it. *)
Definition hunk := (str * Z * list str)%type.

Definition hunk_lines (hunks : list hunk) : list str :=
  flat_map (fun k => fst (fst k) :: snd k) hunks.

Definition well_formed (k : hunk) : Prop :=
  startswith (u "@@") (fst (fst k)) = true /\
  hunk_line (fst (fst k)) = Ok (snd (fst k)) /\
  Forall content (snd k) /\ snd k <> [].

Fixpoint hunk_records (t : diff_tool) (f last : str) (v : Z) (buf : str)
    (hunks : list hunk) : list Annotation :=
  match hunks with
  | [] => [mkAnnotation (u "error") f v 1 (tool_name t) last buf]
  | k :: hunks' =>
      mkAnnotation (u "error") f v 1 (tool_name t) (title_at_hunk t) buf ::
      hunk_records t f last (snd (fst k)) (body_text (snd k)) hunks'
  end.

(** The generators [run] delegates to, in the order of its [yield from]
    statements ([lint_black] being two of them). *)
Definition run_generators (rs : tool_results) (lint_bandit : gen_run)
  : list gen_run :=
  [lint_isort_diffs (stdout (isort_result rs));
   lint_black_errors (stderr (black_result rs));
   lint_black_diffs (stdout (black_result rs));
   LintToolchain.lint_flake8 (stdout (flake8_result rs));
   LintToolchain.lint_mypy (stdout (mypy_result rs));
   LintToolchain.lint_pylint (stdout (pylint_result rs));
   LintToolchain.lint_pydocstyle (stdout (pydocstyle_result rs));
   lint_bandit].

(** * Properties *)

Import LintToolchain.

(** ** Strings and exceptions *)

Lemma str_eqb_eq (s t : str) : str_eqb s t = true <-> s = t.
Proof.
  revert t; induction s as [|c s IH]; intros [|d t]; simpl;
    try (split; [discriminate | discriminate]); try tauto.
  rewrite andb_true_iff, N.eqb_eq, IH.
  split; [intros [-> ->]; reflexivity | intros [= -> ->]; auto].
Qed.

Lemma str_eqb_refl (s : str) : str_eqb s s = true.
Proof. apply str_eqb_eq; reflexivity. Qed.

Lemma in_LEVELS_In (s : str) : in_LEVELS s = true <-> In s LEVELS.
Proof.
  unfold in_LEVELS. rewrite existsb_exists. split.
  - intros (t & Ht & E). apply str_eqb_eq in E. subst; assumption.
  - intros H. exists s. split; [assumption | apply str_eqb_refl].
Qed.

Lemma unpack2_ValueError l e : unpack2 l = Raise e -> e = ValueError.
Proof.
  destruct l as [|x [|y [|z l]]]; simpl; congruence.
Qed.

Lemma int_ValueError s e : int s = Raise e -> e = ValueError.
Proof.
  unfold int.
  destruct (match skip_space (map int_char s) with
            | 43 :: a' => (1%Z, a')
            | 45 :: a' => ((-1)%Z, a')
            | _ => (1%Z, skip_space (map int_char s))
            end) as [sign a].
  assert (G : forall r : result Z,
             (r = Raise ValueError \/ exists v, r = Ok v) ->
             r = Raise e -> e = ValueError).
  { intros r [-> | [v ->]]; congruence. }
  apply G.
  set (r := match scan_digits 0 0 false a with
            | Some (v, count, rest) =>
                match count, skip_space rest with
                | O, _ => Raise ValueError
                | S _, [] =>
                    if Nat.ltb int_max_str_digits count
                    then Raise ValueError else Ok (sign * v)%Z
                | S _, _ :: _ => Raise ValueError
                end
            | None => Raise ValueError
            end).
  assert (R : r = Raise ValueError \/ exists v, r = Ok v).
  { subst r. destruct (scan_digits 0 0 false a) as [[[v count] rest]|];
      [|auto].
    destruct count; [auto|]. destruct (skip_space rest); [|auto].
    destruct (Nat.ltb int_max_str_digits (S count)); eauto. }
  destruct a as [|c a']; [exact R|].
  destruct (N.eq_dec c 95) as [->|Hc]; [auto|].
  destruct c as [|p]; [exact R|].
  repeat (destruct p as [p|p|]; try exact R); congruence.
Qed.

Lemma unpack4_ValueError l e : unpack4 l = Raise e -> e = ValueError.
Proof.
  destruct l as [|x [|y [|z [|w [|v l]]]]]; simpl; congruence.
Qed.

Lemma bind_Raise {A B} (r : result A) (k : A -> result B) e :
  bind r k = Raise e ->
  r = Raise e \/ exists a, r = Ok a /\ k a = Raise e.
Proof.
  destruct r as [a|e']; unfold bind; intros H;
    [right; eauto | left; congruence].
Qed.

(** ** The decoder *)

Lemma utf8_go_cons e st x bs :
  utf8_go e st (x :: bs) =
  let start :=
    utf8_start e x (utf8_go e DStart bs) (fun st' => utf8_go e st' bs) in
  match st with
  | DStart => start
  | DCont need acc lo hi =>
      if (lo <=? x) && (x <=? hi) then
        match need with
        | S (S n) =>
            utf8_go e (DCont (S n) (acc * 64 + (x - 0x80)) 0x80 0xBF) bs
        | _ => cons_ok (acc * 64 + (x - 0x80)) (utf8_go e DStart bs)
        end
      else on_error e start
  end.
Proof. reflexivity. Qed.

Lemma cons_ok_Ok {A} (a : A) r l : r = Ok l -> cons_ok a r = Ok (a :: l).
Proof. intros ->. reflexivity. Qed.

Lemma cons_ok_inv {A} (a : A) r l :
  cons_ok a r = Ok l -> exists l', r = Ok l' /\ l = a :: l'.
Proof.
  destruct r as [l'|e]; unfold cons_ok, bind; [|discriminate].
  intros [= <-]. eauto.
Qed.

Lemma cons_ok_Raise {A} (a : A) (r : result (list A)) e :
  cons_ok a r = Raise e -> r = Raise e.
Proof.
  destruct r as [l'|e']; unfold cons_ok, bind; congruence.
Qed.

Lemma utf8_go_Replace_total bs :
  forall st, exists text, utf8_go Replace st bs = Ok text.
Proof.
  induction bs as [|x bs IH]; intros st.
  - destruct st; simpl; eauto.
  - rewrite utf8_go_cons.
    assert (Hstart : exists text,
               utf8_start Replace x (utf8_go Replace DStart bs)
                 (fun st' => utf8_go Replace st' bs) = Ok text).
    { unfold utf8_start. destruct (IH DStart) as [t Ht].
      destruct (utf8_lead x) as [c|st'|].
      - rewrite (cons_ok_Ok _ _ _ Ht). eauto.
      - apply IH.
      - unfold on_error. rewrite (cons_ok_Ok _ _ _ Ht). eauto. }
    cbv zeta. destruct st as [|need acc lo hi]; [exact Hstart|].
    destruct ((lo <=? x) && (x <=? hi)).
    + destruct (IH DStart) as [t Ht].
      destruct need as [|[|n]]; try apply IH;
        rewrite (cons_ok_Ok _ _ _ Ht); eauto.
    + destruct Hstart as [t Ht]. unfold on_error.
      rewrite (cons_ok_Ok _ _ _ Ht). eauto.
Qed.

Lemma utf8_go_Strict_raises bs :
  forall st e, utf8_go Strict st bs = Raise e -> e = UnicodeDecodeError.
Proof.
  induction bs as [|x bs IH]; intros st e.
  - destruct st; simpl; congruence.
  - rewrite utf8_go_cons.
    assert (Hstart :
               utf8_start Strict x (utf8_go Strict DStart bs)
                 (fun st' => utf8_go Strict st' bs) = Raise e ->
               e = UnicodeDecodeError).
    { unfold utf8_start. destruct (utf8_lead x) as [c|st'|].
      - intros H. apply cons_ok_Raise in H. eapply IH; eassumption.
      - apply IH.
      - unfold on_error. congruence. }
    cbv zeta. destruct st as [|need acc lo hi]; [exact Hstart|].
    destruct ((lo <=? x) && (x <=? hi)); [|unfold on_error; congruence].
    destruct need as [|[|n]]; try apply IH;
      (intros H; apply cons_ok_Raise in H; eapply IH; eassumption).
Qed.

(** On well-formed input the error handler is never called: both decoders
    give the same text. *)
Lemma utf8_go_agree bs :
  forall st text,
    utf8_go Strict st bs = Ok text -> utf8_go Replace st bs = Ok text.
Proof.
  induction bs as [|x bs IH]; intros st text.
  - destruct st; simpl; congruence.
  - rewrite !utf8_go_cons.
    assert (Hstart :
               utf8_start Strict x (utf8_go Strict DStart bs)
                 (fun st' => utf8_go Strict st' bs) = Ok text ->
               utf8_start Replace x (utf8_go Replace DStart bs)
                 (fun st' => utf8_go Replace st' bs) = Ok text).
    { unfold utf8_start. destruct (utf8_lead x) as [c|st'|].
      - intros H. apply cons_ok_inv in H as (t & Ht & ->).
        apply cons_ok_Ok, IH, Ht.
      - apply IH.
      - unfold on_error. discriminate. }
    cbv zeta. destruct st as [|need acc lo hi]; [exact Hstart|].
    destruct ((lo <=? x) && (x <=? hi)); [|unfold on_error; discriminate].
    destruct need as [|[|n]]; try apply IH;
      (intros H; apply cons_ok_inv in H as (t & Ht & ->);
       apply cons_ok_Ok, IH, Ht).
Qed.

Lemma decode_Replace_total output :
  exists text, decode Replace output = Ok text.
Proof. apply utf8_go_Replace_total. Qed.

Lemma decode_Strict_raises output e :
  decode Strict output = Raise e -> e = UnicodeDecodeError.
Proof. apply utf8_go_Strict_raises. Qed.

Lemma decode_agree output text :
  decode Strict output = Ok text -> decode Replace output = Ok text.
Proof. apply utf8_go_agree. Qed.

Lemma not_valid_utf8 output :
  ~ valid_utf8 output -> decode Strict output = Raise UnicodeDecodeError.
Proof.
  intros H. destruct (decode Strict output) as [t|e] eqn:E.
  - exfalso. apply H. exists t. exact E.
  - f_equal. eapply decode_Strict_raises; eassumption.
Qed.

Example decode_replace_example :
  decode Replace [x61; xff; x62; xe2; x82] = Ok [0x61; 0xFFFD; 0x62; 0xFFFD]
  /\ decode Strict [x61; xff; x62; xe2; x82] = Raise UnicodeDecodeError
  /\ decode Strict [xe2; x82; xac] = Ok [0x20AC].
Proof. repeat split. Qed.

Example int_examples :
  int (u " 42 ") = Ok 42%Z /\ int (u "-3") = Ok (-3)%Z /\
  int (u "1_000") = Ok 1000%Z /\ int [0x663; 0x661] = Ok 31%Z /\
  int (u "") = Raise ValueError /\ int (u "3.5") = Raise ValueError /\
  int (u "1__0") = Raise ValueError.
Proof. repeat split. Qed.

(** ** The loops of the line parsers return *)

Lemma try_yield_returns body next :
  (forall e, body = Raise e -> e = ValueError) ->
  raised next = None ->
  raised (try_yield body next) = None.
Proof.
  intros Hb Hn. destruct body as [a|e]; simpl; [assumption|].
  rewrite (Hb e eq_refl). simpl. assumption.
Qed.

Lemma flake8_line_ValueError l e : flake8_line l = Raise e -> e = ValueError.
Proof.
  unfold flake8_line. intros H.
  apply bind_Raise in H as [H | ([[[f n] c] m] & _ & H)];
    [eapply unpack4_ValueError; eassumption|].
  apply bind_Raise in H as [H | (x & _ & H)];
    [eapply int_ValueError; eassumption|].
  apply bind_Raise in H as [H | (y & _ & H)];
    [eapply int_ValueError; eassumption | discriminate].
Qed.

Lemma pylint_line_ValueError l e : pylint_line l = Raise e -> e = ValueError.
Proof.
  unfold pylint_line. intros H.
  apply bind_Raise in H as [H | ([[[f n] c] m] & _ & H)];
    [eapply unpack4_ValueError; eassumption|].
  apply bind_Raise in H as [H | (x & _ & H)];
    [eapply int_ValueError; eassumption|].
  apply bind_Raise in H as [H | (y & _ & H)];
    [eapply int_ValueError; eassumption | discriminate].
Qed.

Lemma mypy_line_ValueError l e : mypy_line l = Raise e -> e = ValueError.
Proof.
  unfold mypy_line. intros H.
  apply bind_Raise in H as [H | ([[[f n] c] m] & _ & H)];
    [eapply unpack4_ValueError; eassumption|].
  apply bind_Raise in H as [H | (x & _ & H)];
    [eapply int_ValueError; eassumption | discriminate].
Qed.

Lemma lint_flake8_lines_returns lines :
  raised (lint_flake8_lines lines) = None.
Proof.
  induction lines as [|l lines IH]; simpl; [reflexivity|].
  destruct (negb (contains COLON l)); [assumption|].
  apply try_yield_returns; [apply flake8_line_ValueError | assumption].
Qed.

Lemma lint_mypy_lines_returns lines :
  raised (lint_mypy_lines lines) = None.
Proof.
  induction lines as [|l lines IH]; simpl; [reflexivity|].
  destruct (negb (contains COLON l)); [assumption|].
  apply try_yield_returns; [apply mypy_line_ValueError | assumption].
Qed.

Lemma lint_pylint_lines_returns lines :
  raised (lint_pylint_lines lines) = None.
Proof.
  induction lines as [|l lines IH]; simpl; [reflexivity|].
  destruct (negb (contains COLON l)); [assumption|].
  apply try_yield_returns; [apply pylint_line_ValueError | assumption].
Qed.

(** The docstring loop skips a line or two at a time: induction on the
    length of what is left. *)
Lemma lint_pydocstyle_lines_returns lines :
  raised (lint_pydocstyle_lines lines) = None.
Proof.
  remember (List.length lines) as n eqn:Hn.
  revert lines Hn.
  induction n as [n IH] using lt_wf_ind. intros lines Hn.
  destruct lines as [|h rest]; simpl; [reflexivity|].
  simpl in Hn.
  destruct (negb (contains COLON h)).
  { eapply IH; [|reflexivity]. lia. }
  destruct (unpack2 _) as [[f ln]|e] eqn:E.
  - destruct rest as [|msg rest']; [reflexivity|].
    apply try_yield_returns.
    + intros e H. apply bind_Raise in H as [H | (x & _ & H)];
        [eapply int_ValueError; eassumption | discriminate].
    + eapply IH; [|reflexivity]. simpl in Hn. lia.
  - rewrite (unpack2_ValueError _ _ E). simpl.
    eapply IH; [|reflexivity]. lia.
Qed.

(** ** C1: which parsers raise, and when *)

(** C1, as stated, fails: the black stderr parser and the two diff scanners
    have no handler, so a line they cannot unpack ends them with
    [ValueError] (a black message with fewer than five colons, a hunk header
    whose range has no comma, a file header without a tab); and a parser
    that decodes strictly raises [UnicodeDecodeError] on a byte that is not
    UTF-8. *)
Lemma parsers_can_raise :
  raised (lint_black_errors (b "error: cannot format a.py: oops"))
    = Some ValueError /\
  raised (lint_isort_diffs (b "@@ -5 +5,2 @@")) = Some ValueError /\
  raised (lint_black_diffs (b "--- a.py")) = Some ValueError /\
  raised (lint_flake8 [xff]) = Some UnicodeDecodeError.
Proof. repeat split; vm_compute; reflexivity. Qed.

(** C1, amended: the pylint parser returns on every byte input; the flake8,
    mypy and pydocstyle parsers return on every byte input that is valid
    UTF-8, each with a finite list of records, and on any other input raise
    [UnicodeDecodeError] before they yield anything. *)
Theorem line_parsers_return (output : list byte) :
  raised (lint_pylint output) = None /\
  (valid_utf8 output ->
   raised (lint_flake8 output) = None /\
   raised (lint_mypy output) = None /\
   raised (lint_pydocstyle output) = None) /\
  (~ valid_utf8 output ->
   lint_flake8 output = raise UnicodeDecodeError /\
   lint_mypy output = raise UnicodeDecodeError /\
   lint_pydocstyle output = raise UnicodeDecodeError).
Proof.
  split; [|split].
  - unfold lint_pylint, with_lines.
    destruct (decode_Replace_total output) as [text ->].
    apply lint_pylint_lines_returns.
  - intros [text H].
    unfold lint_flake8, lint_mypy, lint_pydocstyle, with_lines. rewrite H.
    split; [apply lint_flake8_lines_returns|].
    split; [apply lint_mypy_lines_returns|].
    apply lint_pydocstyle_lines_returns.
  - intros H. apply not_valid_utf8 in H.
    unfold lint_flake8, lint_mypy, lint_pydocstyle, with_lines. rewrite H.
    repeat split.
Qed.

Lemma line_parsers_return_witness :
  (raised (lint_flake8 (b "a.py:1:2: E501 line too long")) = None /\
   raised (lint_mypy (b "a.py:1:2: E501 line too long")) = None /\
   raised (lint_pydocstyle (b "a.py:1:2: E501 line too long")) = None) /\
  (lint_flake8 [x61; xff] = raise UnicodeDecodeError /\
   lint_mypy [x61; xff] = raise UnicodeDecodeError /\
   lint_pydocstyle [x61; xff] = raise UnicodeDecodeError).
Proof.
  split.
  - apply (proj1 (proj2 (line_parsers_return _))).
    eexists. vm_compute. reflexivity.
  - apply (proj2 (proj2 (line_parsers_return _))).
    intros [text H]. vm_compute in H. discriminate H.
Defined.

(** ** C2: the level of a mypy line *)

(** C2: the level written by mypy is trimmed; a trimmed value among
    ["notice"], ["warning"], ["error"] is returned as it is, ["note"] gives
    ["notice"], and every other string (the empty one, ["ERROR"], ...) gives
    ["error"]. *)
Theorem mypy_level_spec (raw : str) :
  (In (strip raw) [u "notice"; u "warning"; u "error"] ->
   mypy_level raw = strip raw) /\
  (strip raw = u "note" -> mypy_level raw = u "notice") /\
  (~ In (strip raw) [u "notice"; u "warning"; u "error"; u "note"] ->
   mypy_level raw = u "error").
Proof.
  unfold mypy_level. split; [|split].
  - intros H.
    destruct (str_eqb (strip raw) (u "note")) eqn:E.
    + apply str_eqb_eq in E. rewrite E in H. exfalso.
      destruct H as [H|[H|[H|[]]]]; vm_compute in H; discriminate H.
    + apply in_LEVELS_In in H. rewrite H. reflexivity.
  - intros ->. reflexivity.
  - intros H.
    destruct (str_eqb (strip raw) (u "note")) eqn:E.
    + apply str_eqb_eq in E. exfalso. apply H. rewrite E. simpl. tauto.
    + destruct (in_LEVELS (strip raw)) eqn:L; [|reflexivity].
      apply in_LEVELS_In in L. exfalso. apply H.
      unfold LEVELS in L. simpl in L |- *. tauto.
Qed.

Lemma mypy_level_spec_witness :
  mypy_level (u " warning ") = u "warning" /\
  mypy_level (u "note") = u "notice" /\
  mypy_level (u "ERROR") = u "error" /\
  mypy_level (u "") = u "error".
Proof.
  split; [|split; [|split]].
  - apply (proj1 (mypy_level_spec (u " warning "))).
    vm_compute. tauto.
  - apply (proj1 (proj2 (mypy_level_spec (u "note")))).
    vm_compute. reflexivity.
  - apply (proj2 (proj2 (mypy_level_spec (u "ERROR")))).
    vm_compute. intros [H|[H|[H|[H|[]]]]]; discriminate H.
  - apply (proj2 (proj2 (mypy_level_spec (u "")))).
    vm_compute. intros [H|[H|[H|[H|[]]]]]; discriminate H.
Defined.

(** ** C6: decoding *)

(** C6, as stated, fails for mypy: its output is decoded strictly, and one
    byte that is not UTF-8 ends the parser with [UnicodeDecodeError]. *)
Lemma mypy_decodes_strictly :
  lint_mypy (b "a.py:1: error: x" ++ [xff]) = raise UnicodeDecodeError.
Proof. vm_compute. reflexivity. Qed.

(** C6, amended: only the pylint parser decodes with substitution; it reads
    the text the tolerant decoder gives, whatever the bytes, and returns.
    The mypy parser decodes strictly: on valid UTF-8 it reads the same text
    as the tolerant decoder would give, on anything else it raises
    [UnicodeDecodeError]. *)
Theorem decode_tolerance (output : list byte) :
  (exists text,
     decode Replace output = Ok text /\
     lint_pylint output = lint_pylint_lines (split NL text) /\
     raised (lint_pylint output) = None) /\
  (forall text,
     decode Strict output = Ok text ->
     decode Replace output = Ok text /\
     lint_mypy output = lint_mypy_lines (split NL text)) /\
  (~ valid_utf8 output -> lint_mypy output = raise UnicodeDecodeError).
Proof.
  split; [|split].
  - destruct (decode_Replace_total output) as [text H].
    exists text. unfold lint_pylint, with_lines. rewrite H.
    repeat split. apply lint_pylint_lines_returns.
  - intros text H. split; [apply decode_agree, H|].
    unfold lint_mypy, with_lines. rewrite H. reflexivity.
  - intros H. apply not_valid_utf8 in H.
    unfold lint_mypy, with_lines. rewrite H. reflexivity.
Qed.

Lemma decode_tolerance_witness :
  (decode Replace (b "a.py:1: note: x") = Ok (u "a.py:1: note: x") /\
   lint_mypy (b "a.py:1: note: x")
     = lint_mypy_lines (split NL (u "a.py:1: note: x"))) /\
  lint_mypy [xc3; x28] = raise UnicodeDecodeError.
Proof.
  split.
  - apply (proj1 (proj2 (decode_tolerance _))). vm_compute. reflexivity.
  - apply (proj2 (proj2 (decode_tolerance _))).
    intros [text H]. vm_compute in H. discriminate H.
Defined.

Example pylint_reads_malformed_bytes :
  lint_pylint (b "a.py:1:2: C0103 " ++ [xff]) =
  mkRun [mkAnnotation (u "error") (u "a.py") 1 2 (u "pylint") (u "")
           (u " C0103 " ++ [0xFFFD])] None.
Proof. vm_compute. reflexivity. Qed.

(** ** C7 and C8: one line of pylint, one line of mypy *)

(** C7, as stated, fails: pylint's message is the fourth field as it is,
    and in ["pkg/a.py:10:3: C0114 missing docstring"] that field starts with
    the blank after the third colon. *)
Lemma pylint_message_differs :
  ~ exists a,
      yielded (lint_pylint (b "pkg/a.py:10:3: C0114 missing docstring")) = [a]
      /\ message a = u "C0114 missing docstring".
Proof.
  intros (a & H & M). vm_compute in H.
  injection H as <-. vm_compute in M. discriminate M.
Qed.

(** C7, amended: the line ["pkg/a.py:10:3: C0114 missing docstring"] gives
    exactly one record, with severity error, file ["pkg/a.py"], line 10,
    column 3 and the message [" C0114 missing docstring"], leading blank
    kept. *)
Theorem pylint_scenario :
  lint_pylint (b "pkg/a.py:10:3: C0114 missing docstring") =
  mkRun [mkAnnotation (u "error") (u "pkg/a.py") 10 3 (u "pylint") (u "")
           (u " C0114 missing docstring")] None.
Proof. vm_compute. reflexivity. Qed.

(** C8: the line ["mymodule/foo.py:42:note: Revealed type is 'int'"] gives
    exactly one record: severity notice, file ["mymodule/foo.py"], line 42,
    column 1, source ["mypy"], message ["Revealed type is 'int'"]. *)
Theorem mypy_scenario :
  lint_mypy (b "mymodule/foo.py:42:note: Revealed type is 'int'") =
  mkRun [mkAnnotation (u "notice") (u "mymodule/foo.py") 42 1 (u "mypy")
           (u "") (u "Revealed type is 'int'")] None.
Proof. vm_compute. reflexivity. Qed.

(** ** C9: positions *)

Lemma yielded_try_yield (P : Annotation -> Prop) body next :
  (forall a, body = Ok a -> P a) ->
  Forall P (yielded next) ->
  Forall P (yielded (try_yield body next)).
Proof.
  intros Hb Hn. destruct body as [a|e]; simpl.
  - constructor; [apply Hb; reflexivity | assumption].
  - destruct (is_ValueError e); [assumption | constructor].
Qed.

Lemma yielded_with_lines (P : Annotation -> Prop) e output loop :
  (forall lines, Forall P (yielded (loop lines))) ->
  Forall P (yielded (with_lines e output loop)).
Proof.
  intros H. unfold with_lines.
  destruct (decode e output); [apply H | constructor].
Qed.

Lemma mypy_line_column l a : mypy_line l = Ok a -> column a = 1%Z.
Proof.
  unfold mypy_line.
  destruct (unpack4 _) as [[[[f n] lv] m]|e]; simpl; [|discriminate].
  destruct (int n); simpl; [|discriminate].
  intros [= <-]. reflexivity.
Qed.

Lemma lint_mypy_lines_column lines :
  Forall (fun a => column a = 1%Z) (yielded (lint_mypy_lines lines)).
Proof.
  induction lines as [|l lines IH]; simpl; [constructor|].
  destruct (negb (contains COLON l)); [assumption|].
  apply yielded_try_yield; [apply mypy_line_column | assumption].
Qed.

Lemma lint_pydocstyle_lines_column lines :
  Forall (fun a => column a = 1%Z) (yielded (lint_pydocstyle_lines lines)).
Proof.
  remember (List.length lines) as n eqn:Hn.
  revert lines Hn.
  induction n as [n IH] using lt_wf_ind. intros lines Hn.
  destruct lines as [|h rest]; simpl; [constructor|].
  simpl in Hn.
  destruct (negb (contains COLON h)).
  { eapply IH; [|reflexivity]. lia. }
  destruct (unpack2 _) as [[f ln]|e] eqn:E.
  - destruct rest as [|msg rest']; [constructor|].
    apply yielded_try_yield.
    + intros a. destruct (int ln); simpl; [|discriminate].
      intros [= <-]. reflexivity.
    + eapply IH; [|reflexivity]. simpl in Hn. lia.
  - destruct (is_ValueError e); [|constructor].
    eapply IH; [|reflexivity]. lia.
Qed.

(** The scanner's [line] is never negative: it starts at 0 and is only ever
    set to an absolute value. *)
Lemma diff_step_line t st l ys st' :
  (0 <= cur_line st)%Z ->
  diff_step t st l = (ys, Ok st') -> (0 <= cur_line st')%Z.
Proof.
  intros H. unfold diff_step.
  destruct (startswith (u "+++ ") l); [intros [= <- <-]; assumption|].
  destruct (startswith (u "--- ") l).
  { destruct (header_file l); simpl; intros [= <- <-]; assumption. }
  destruct (startswith (u "@@") l).
  - unfold hunk_line.
    destruct (unpack4 _) as [[[[a s] c] d]|e]; simpl; [|discriminate].
    destruct (unpack2 _) as [[n m]|e]; simpl; [|discriminate].
    destruct (int n); simpl; [|discriminate].
    intros [= <- <-]. simpl. apply Z.abs_nonneg.
  - intros [= <- <-]. assumption.
Qed.

Lemma flush_position name ttl st :
  (0 <= cur_line st)%Z ->
  Forall (fun a => column a = 1%Z /\ (0 <= line a)%Z) (flush name ttl st).
Proof.
  intros H. unfold flush.
  destruct (truthy (cur_file st) && truthy (buffer st));
    repeat constructor; assumption.
Qed.

Lemma diff_step_position t st l :
  (0 <= cur_line st)%Z ->
  Forall (fun a => column a = 1%Z /\ (0 <= line a)%Z)
    (fst (diff_step t st l)).
Proof.
  intros H. unfold diff_step.
  destruct (startswith (u "+++ ") l); [constructor|].
  destruct (startswith (u "--- ") l); [apply flush_position, H|].
  destruct (startswith (u "@@") l); [apply flush_position, H | constructor].
Qed.

Lemma diff_loop_position t lines :
  forall st,
    (0 <= cur_line st)%Z ->
    Forall (fun a => column a = 1%Z /\ (0 <= line a)%Z)
      (yielded (diff_loop t st lines)).
Proof.
  induction lines as [|l lines IH]; intros st H; simpl; [constructor|].
  pose proof (diff_step_position t st l H) as Hys.
  pose proof (diff_step_line t st l) as Hst.
  destruct (diff_step t st l) as [ys [st'|e]]; simpl in *.
  - apply Forall_app. split; [assumption|].
    apply IH. eapply Hst; [assumption | reflexivity].
  - rewrite app_nil_r. assumption.
Qed.

(** C9, as stated, fails: flake8 (and pylint, and the black stderr parser)
    pass on whatever integers the line holds, zero and negative ones
    included. *)
Lemma flake8_position_not_positive :
  map (fun a => (line a, column a))
    (yielded (lint_flake8 (b "a.py:0:-1: E999 oops"))) = [(0%Z, (-1)%Z)].
Proof. vm_compute. reflexivity. Qed.

(** C9, amended: every record of the mypy and pydocstyle parsers has column
    1, and every record of the two diff scanners has column 1 and a line
    that is never negative (the absolute value of a hunk start, or 0 when no
    hunk header came before). Nothing is promised for the line of the line
    parsers or for the columns flake8, pylint and the black stderr parser
    read from the input. *)
Theorem positions (output : list byte) :
  Forall (fun a => column a = 1%Z) (yielded (lint_mypy output)) /\
  Forall (fun a => column a = 1%Z) (yielded (lint_pydocstyle output)) /\
  Forall (fun a => column a = 1%Z /\ (0 <= line a)%Z)
    (yielded (lint_isort_diffs output)) /\
  Forall (fun a => column a = 1%Z /\ (0 <= line a)%Z)
    (yielded (lint_black_diffs output)).
Proof.
  repeat split.
  - apply yielded_with_lines, lint_mypy_lines_column.
  - apply yielded_with_lines, lint_pydocstyle_lines_column.
  - apply yielded_with_lines. intros lines.
    apply diff_loop_position. simpl. lia.
  - apply yielded_with_lines. intros lines.
    apply diff_loop_position. simpl. lia.
Qed.

(** ** The diff scanners, one kind of line at a time *)

Lemma lint_diffs_reads t output lines :
  reads output lines -> lint_diffs t output = diff_loop t diff_init lines.
Proof.
  intros (text & H & <-). unfold lint_diffs, with_lines. rewrite H.
  reflexivity.
Qed.

Lemma startswith_hunk l :
  startswith (u "@@") l = true ->
  startswith (u "+++ ") l = false /\ startswith (u "--- ") l = false.
Proof.
  change (u "@@") with [64; 64]. change (u "+++ ") with [43; 43; 43; 32].
  change (u "--- ") with [45; 45; 45; 32].
  destruct l as [|c l]; cbn [startswith]; [discriminate|].
  destruct (N.eqb_spec 64 c) as [<-|]; cbn [andb]; [|discriminate].
  intros _. split; reflexivity.
Qed.

Lemma startswith_file l :
  startswith (u "--- ") l = true -> startswith (u "+++ ") l = false.
Proof.
  change (u "+++ ") with [43; 43; 43; 32].
  change (u "--- ") with [45; 45; 45; 32].
  destruct l as [|c l]; cbn [startswith]; [discriminate|].
  destruct (N.eqb_spec 45 c) as [<-|]; cbn [andb]; [|discriminate].
  intros _. reflexivity.
Qed.

Lemma diff_step_hunk t st h v :
  startswith (u "@@") h = true ->
  hunk_line h = Ok v ->
  diff_step t st h =
  (flush (tool_name t) (title_at_hunk t) st,
   Ok (mkState (cur_file st) v (u ""))).
Proof.
  intros H V. destruct (startswith_hunk h H) as [H1 H2].
  unfold diff_step. rewrite H1, H2, H, V. reflexivity.
Qed.

Lemma diff_step_file t st fh f :
  startswith (u "--- ") fh = true ->
  header_file fh = Ok f ->
  diff_step t st fh =
  (flush (tool_name t) (title_at_file t) st,
   Ok (mkState f (cur_line st) (u ""))).
Proof.
  intros H F. unfold diff_step.
  rewrite (startswith_file fh H), H, F. reflexivity.
Qed.

(** A header flushes first, then is parsed. *)
Lemma diff_step_header t st h :
  header h ->
  fst (diff_step t st h) = flush (tool_name t) (flush_title t h) st.
Proof.
  intros [H1 H2]. unfold diff_step, flush_title. rewrite H1.
  destruct (startswith (u "--- ") h); [reflexivity|].
  destruct H2 as [H2|H2]; [discriminate|]. rewrite H2. reflexivity.
Qed.

Lemma diff_step_content t st l :
  content l ->
  diff_step t st l =
  ([], Ok (mkState (cur_file st) (cur_line st) (buffer st ++ l ++ [NL]))).
Proof.
  intros (H1 & H2 & H3). unfold diff_step. rewrite H1, H2, H3. reflexivity.
Qed.

(** A line that is no header yields nothing, leaves [file] and [line] as
    they are and cannot raise. *)
Lemma diff_step_no_header t st l :
  no_header l ->
  exists buf,
    diff_step t st l = ([], Ok (mkState (cur_file st) (cur_line st) buf)).
Proof.
  intros (H2 & H3). unfold diff_step. rewrite H2, H3.
  destruct (startswith (u "+++ ") l); [|eauto].
  exists (buffer st). destruct st; reflexivity.
Qed.

Lemma yield_then_nil g : yield_then [] g = g.
Proof. destruct g; reflexivity. Qed.

Lemma diff_loop_no_header t lines :
  Forall no_header lines -> forall st, diff_loop t st lines = done.
Proof.
  induction 1 as [|l lines Hl _ IH]; intros st; simpl; [reflexivity|].
  destruct (diff_step_no_header t st l Hl) as [buf ->].
  rewrite yield_then_nil. apply IH.
Qed.

(** Lines that are no header, read from the start: still no file. *)
Lemma diff_loop_preamble t pre :
  Forall no_header pre ->
  forall st, cur_file st = [] ->
    exists st', cur_file st' = [] /\
      forall rest, diff_loop t st (pre ++ rest) = diff_loop t st' rest.
Proof.
  induction 1 as [|l lines Hl _ IH]; intros st F.
  - exists st. split; [assumption | reflexivity].
  - destruct (diff_step_no_header t st l Hl) as [buf E].
    destruct (IH (mkState (cur_file st) (cur_line st) buf) F)
      as (st' & F' & R).
    exists st'. split; [assumption|]. intros rest. simpl.
    rewrite E, yield_then_nil. apply R.
Qed.

Lemma diff_loop_content t body :
  Forall content body ->
  forall st rest,
    diff_loop t st (body ++ rest) =
    diff_loop t
      (mkState (cur_file st) (cur_line st) (buffer st ++ body_text body))
      rest.
Proof.
  induction 1 as [|l body Hl _ IH]; intros st rest; simpl.
  - rewrite app_nil_r. destruct st; reflexivity.
  - rewrite (diff_step_content t st l Hl), yield_then_nil, IH. simpl.
    rewrite <- !app_assoc. reflexivity.
Qed.

Lemma body_text_truthy body : body <> [] -> truthy (body_text body) = true.
Proof.
  destruct body as [|l body]; [congruence|]. intros _. simpl.
  destruct l; reflexivity.
Qed.

Lemma flush_full name ttl f n buf :
  f <> [] -> truthy buf = true ->
  flush name ttl (mkState f n buf) =
  [mkAnnotation (u "error") f n 1 name ttl buf].
Proof.
  intros F B. unfold flush. simpl. rewrite B.
  destruct f; [congruence | reflexivity].
Qed.

Lemma flush_empty_buffer name ttl f n :
  flush name ttl (mkState f n []) = [].
Proof. unfold flush. simpl. rewrite andb_false_r. reflexivity. Qed.

Lemma flush_no_file name ttl n buf :
  flush name ttl (mkState [] n buf) = [].
Proof. reflexivity. Qed.

Lemma diff_loop_cons t st l rest ys st' :
  diff_step t st l = (ys, Ok st') ->
  diff_loop t st (l :: rest) = yield_then ys (diff_loop t st' rest).
Proof. intros H. simpl. rewrite H. reflexivity. Qed.

(** After a header has flushed, lines that are no header add no record,
    whether the header itself could be parsed or not. *)
Lemma diff_loop_closing t st h rest :
  header h -> Forall no_header rest ->
  yielded (diff_loop t st (h :: rest)) =
  flush (tool_name t) (flush_title t h) st.
Proof.
  intros H R. simpl. pose proof (diff_step_header t st h H) as E.
  destruct (diff_step t st h) as [ys [st'|e]]; simpl in *; subst ys.
  - rewrite (diff_loop_no_header t rest R). simpl. apply app_nil_r.
  - apply app_nil_r.
Qed.

Lemma diff_loop_trailing t body :
  Forall no_header body ->
  forall pre st, diff_loop t st (pre ++ body) = diff_loop t st pre.
Proof.
  intros B. induction pre as [|l pre IH]; intros st; simpl.
  - apply diff_loop_no_header, B.
  - destruct (diff_step t st l) as [ys [st'|e]]; [rewrite IH|]; reflexivity.
Qed.

(** The start line of a hunk header is the absolute value of the number
    before the comma of its second blank-separated field, and the header has
    exactly four such fields. *)
Lemma hunk_line_spec h f1 start f3 f4 n count v :
  split SPACE h = [f1; start; f3; f4] ->
  split COMMA start = [n; count] ->
  int n = Ok v ->
  hunk_line h = Ok (Z.abs v).
Proof.
  intros H1 H2 H3. unfold hunk_line. rewrite H1. simpl.
  rewrite H2. simpl. rewrite H3. reflexivity.
Qed.

(** ** C3: two hunks of one file *)

(** C3, as stated, fails: of two hunks under one file header, the second is
    still in the buffer when the input ends, and only the first is
    yielded. *)
Lemma two_hunks_one_record :
  lint_black_diffs
    (b "--- a.py" ++ [x09] ++ b "2024" ++ [x0a] ++
     b "@@ -5,2 +5,3 @@" ++ [x0a] ++ b " x" ++ [x0a] ++ b "+y" ++ [x0a] ++
     b "@@ -20,1 +21,2 @@" ++ [x0a] ++ b "+z" ++ [x0a]) =
  mkRun [mkAnnotation (u "error") (u "a.py") 5 1 (u "black")
           (u "Black alteration") (u " x" ++ [NL] ++ u "+y" ++ [NL])] None.
Proof. vm_compute. reflexivity. Qed.

(** C3, amended: take a file header naming a file [f], then a hunk header
    and its lines, then a second hunk header and its lines, both bodies
    non-empty. If a further header line ([closing]) follows, exactly two
    records are yielded, each with the start line of its own hunk header
    ([hunk_line], an absolute value) and, as message, exactly the lines up
    to the next header. If the input ends after the second body, only the
    first record is yielded. *)
Theorem two_hunks t pre fh f h1 v1 body1 h2 v2 body2 :
  Forall no_header pre ->
  startswith (u "--- ") fh = true -> header_file fh = Ok f -> f <> [] ->
  startswith (u "@@") h1 = true -> hunk_line h1 = Ok v1 ->
  Forall content body1 -> body1 <> [] ->
  startswith (u "@@") h2 = true -> hunk_line h2 = Ok v2 ->
  Forall content body2 -> body2 <> [] ->
  let input := pre ++ fh :: h1 :: body1 ++ h2 :: body2 in
  let first :=
    mkAnnotation (u "error") f v1 1 (tool_name t) (title_at_hunk t)
      (body_text body1) in
  let second ttl :=
    mkAnnotation (u "error") f v2 1 (tool_name t) ttl (body_text body2) in
  (forall output closing rest,
     reads output (input ++ closing :: rest) ->
     header closing -> Forall no_header rest ->
     yielded (lint_diffs t output)
       = [first; second (flush_title t closing)]) /\
  (forall output,
     reads output input -> lint_diffs t output = mkRun [first] None).
Proof.
  intros Hpre Hfh Hf Fne Hh1 Hv1 Hb1 B1 Hh2 Hv2 Hb2 B2 input first second.
  destruct (diff_loop_preamble t pre Hpre diff_init eq_refl)
    as ([f0 n0 buf0] & F0 & Rpre).
  simpl in F0. subst f0.
  assert (Run : forall tail,
             diff_loop t diff_init (input ++ tail) =
             yield_then [first]
               (diff_loop t (mkState f v2 (body_text body2)) tail)).
  { intros tail. subst input.
    rewrite <- app_assoc, Rpre. cbn [app].
    rewrite (diff_loop_cons t _ fh _ _ _ (diff_step_file t _ fh f Hfh Hf)).
    rewrite flush_no_file, yield_then_nil.
    rewrite (diff_loop_cons t _ h1 _ _ _ (diff_step_hunk t _ h1 v1 Hh1 Hv1)).
    cbn [cur_file cur_line]. rewrite flush_empty_buffer, yield_then_nil.
    rewrite <- app_assoc, (diff_loop_content t body1 Hb1).
    cbn [cur_file cur_line buffer app].
    rewrite (diff_loop_cons t _ h2 _ _ _ (diff_step_hunk t _ h2 v2 Hh2 Hv2)).
    cbn [cur_file cur_line].
    rewrite (flush_full _ _ f v1 _ Fne (body_text_truthy body1 B1)).
    rewrite (diff_loop_content t body2 Hb2).
    reflexivity. }
  split.
  - intros output closing rest R Hc Hrest.
    rewrite (lint_diffs_reads t output _ R), Run. cbn [yield_then yielded].
    rewrite (diff_loop_closing t _ closing rest Hc Hrest).
    rewrite (flush_full _ _ f v2 _ Fne (body_text_truthy body2 B2)).
    reflexivity.
  - intros output R.
    rewrite (lint_diffs_reads t output _ R).
    rewrite <- (app_nil_r input), Run. reflexivity.
Qed.

Lemma two_hunks_witness :
  yielded
    (lint_diffs isort
       (b "--- a.py" ++ [x09] ++ b "2024" ++ [x0a] ++
        b "@@ -5,2 +5,3 @@" ++ [x0a] ++ b " x" ++ [x0a] ++ b "+y" ++ [x0a] ++
        b "@@ -20,1 +21,2 @@" ++ [x0a] ++ b "+z" ++ [x0a] ++
        b "--- b.py" ++ [x09] ++ b "2024" ++ [x0a]))
  = [mkAnnotation (u "error") (u "a.py") 5 1 (u "isort")
       (u "isort altteration") (body_text [u " x"; u "+y"]);
     mkAnnotation (u "error") (u "a.py") 20 1 (u "isort")
       (u "isort alteration") (body_text [u "+z"])].
Proof.
  refine (proj1 (two_hunks isort [] (u "--- a.py" ++ [TAB] ++ u "2024")
                   (u "a.py") (u "@@ -5,2 +5,3 @@") 5 [u " x"; u "+y"]
                   (u "@@ -20,1 +21,2 @@") 20 [u "+z"]
                   _ _ _ _ _ _ _ _ _ _ _ _)
            _ (u "--- b.py" ++ [TAB] ++ u "2024") [u ""] _ _ _);
    try (vm_compute; reflexivity); try discriminate;
    repeat constructor.
  - eexists. split; vm_compute; reflexivity.
Defined.

(** ** C4: the start line of a hunk header *)

(** C4, as stated, fails: with anything after the closing ["@@"] the header
    has more than four blank-separated fields, the unpacking raises
    [ValueError], and no record is ever yielded for that hunk. *)
Lemma hunk_header_with_trailer_raises :
  hunk_line (u "@@ -12,5 +15,5 @@ ...") = Raise ValueError /\
  lint_black_diffs
    (b "--- a.py" ++ [x09] ++ b "2024" ++ [x0a] ++
     b "@@ -12,5 +15,5 @@ ..." ++ [x0a] ++ b "+y" ++ [x0a] ++
     b "--- b.py" ++ [x09] ++ b "2024" ++ [x0a]) =
  mkRun [] (Some ValueError).
Proof. split; vm_compute; reflexivity. Qed.

(** C4, amended: the hunk header ["@@ -12,5 +15,5 @@"], with nothing after
    the closing ["@@"], sets the current line to 12 (and empties the buffer);
    when a file is known and lines of content follow, the record flushed by
    the next header carries line 12 and those lines. *)
Theorem hunk_header_12 t st body closing rest :
  cur_file st <> [] -> Forall content body -> body <> [] ->
  header closing ->
  diff_step t st (u "@@ -12,5 +15,5 @@") =
  (flush (tool_name t) (title_at_hunk t) st,
   Ok (mkState (cur_file st) 12 (u ""))) /\
  exists more,
    yielded (diff_loop t st (u "@@ -12,5 +15,5 @@" :: body ++ closing :: rest))
    = flush (tool_name t) (title_at_hunk t) st ++
      mkAnnotation (u "error") (cur_file st) 12 1 (tool_name t)
        (flush_title t closing) (body_text body) :: more.
Proof.
  intros F Hb B Hc.
  assert (E : diff_step t st (u "@@ -12,5 +15,5 @@") =
              (flush (tool_name t) (title_at_hunk t) st,
               Ok (mkState (cur_file st) 12 (u "")))).
  { apply diff_step_hunk; vm_compute; reflexivity. }
  split; [exact E|].
  rewrite (diff_loop_cons t _ _ _ _ _ E).
  rewrite (diff_loop_content t body Hb). cbn [cur_file cur_line buffer app].
  cbn [diff_loop]. pose proof (diff_step_header t
    (mkState (cur_file st) 12 (body_text body)) closing Hc) as H.
  rewrite (flush_full _ _ _ _ _ F (body_text_truthy body B)) in H.
  destruct (diff_step t _ closing) as [ys [st'|e]]; cbn [fst] in H; subst ys.
  - exists (yielded (diff_loop t st' rest)). reflexivity.
  - exists []. reflexivity.
Qed.

Lemma hunk_header_12_witness :
  diff_step black (mkState (u "a.py") 0 (u "")) (u "@@ -12,5 +15,5 @@") =
  ([], Ok (mkState (u "a.py") 12 (u ""))) /\
  exists more,
    yielded (diff_loop black (mkState (u "a.py") 0 (u ""))
               [u "@@ -12,5 +15,5 @@"; u "-x"; u "+y";
                u "@@ -30,2 +30,2 @@"; u " z"])
    = mkAnnotation (u "error") (u "a.py") 12 1 (u "black")
        (u "Black alteration") (body_text [u "-x"; u "+y"]) :: more.
Proof.
  refine (hunk_header_12 black (mkState (u "a.py") 0 (u ""))
            [u "-x"; u "+y"] (u "@@ -30,2 +30,2 @@") [u " z"] _ _ _ _).
  - discriminate.
  - repeat constructor.
  - discriminate.
  - split; [reflexivity | right; reflexivity].
Defined.

(** ** C5: the end of the input *)

(** C5: whatever follows the last header line of the input is not flushed:
    with [body] the lines after it (none of them a header), the scanner
    yields and raises exactly what it does on the input cut before
    [body]. *)
Theorem trailing_buffer_dropped t output pre body :
  reads output (pre ++ body) ->
  Forall no_header body ->
  lint_diffs t output = diff_loop t diff_init pre.
Proof.
  intros R B. rewrite (lint_diffs_reads t output _ R).
  apply diff_loop_trailing, B.
Qed.

Lemma trailing_buffer_dropped_witness :
  lint_diffs black
    (b "--- a.py" ++ [x09] ++ b "2024" ++ [x0a] ++
     b "@@ -5,2 +5,3 @@" ++ [x0a] ++ b " x" ++ [x0a] ++ b "+y" ++ [x0a])
  = diff_loop black diff_init
      [u "--- a.py" ++ [TAB] ++ u "2024"; u "@@ -5,2 +5,3 @@"] /\
  diff_loop black diff_init
    [u "--- a.py" ++ [TAB] ++ u "2024"; u "@@ -5,2 +5,3 @@"] = done.
Proof.
  split; [|vm_compute; reflexivity].
  apply (trailing_buffer_dropped black _ _ [u " x"; u "+y"; u ""]).
  - eexists. split; vm_compute; reflexivity.
  - repeat constructor.
Defined.

(** ** C10: a header at the end of the pydocstyle output *)

Lemma lint_pydocstyle_lines_step lines :
  lint_pydocstyle_lines lines =
  match pydocstyle_step lines with
  | None => done
  | Some (ys, rest) => yield_then ys (lint_pydocstyle_lines rest)
  end.
Proof.
  destruct lines as [|h rest]; [reflexivity|].
  cbn [lint_pydocstyle_lines pydocstyle_step].
  destruct (negb (contains COLON h)); [rewrite yield_then_nil; reflexivity|].
  destruct (unpack2 _) as [[f ln]|e] eqn:E.
  - destruct rest as [|msg rest']; [reflexivity|].
    destruct (int ln) as [l|e] eqn:I; cbn [bind try_yield];
      [reflexivity|].
    rewrite (int_ValueError _ _ I). cbn [is_ValueError].
    rewrite yield_then_nil. reflexivity.
  - rewrite (unpack2_ValueError _ _ E). cbn [is_ValueError].
    rewrite yield_then_nil. reflexivity.
Qed.

Lemma yield_then_app ys zs g :
  yield_then (ys ++ zs) g = yield_then ys (yield_then zs g).
Proof. unfold yield_then. simpl. rewrite app_assoc. reflexivity. Qed.

Lemma loop_reaches_run lines ys rest :
  loop_reaches lines ys rest ->
  lint_pydocstyle_lines lines = yield_then ys (lint_pydocstyle_lines rest).
Proof.
  induction 1 as [|ys l1 ys1 l2 _ IH Hstep].
  - rewrite yield_then_nil. reflexivity.
  - rewrite IH, (lint_pydocstyle_lines_step l1), Hstep, yield_then_app.
    reflexivity.
Qed.

(** A header that is the last line: [next(lines)] finds nothing, and the
    turn ends with no record and the iterator empty. *)
Lemma pydocstyle_step_last h :
  contains COLON h = true -> pydocstyle_step [h] = Some ([], []).
Proof.
  intros H. unfold pydocstyle_step. rewrite H. cbn [negb].
  destruct (unpack2 _) as [[f ln]|e]; reflexivity.
Qed.

(** C10, as stated, fails twice. The output is decoded strictly before the
    loop, so bytes that are not UTF-8 make the parser raise, header at the
    end or not. And an output that ends with a header and its newline is
    split into the header and an empty last line: [next(lines)] takes that
    empty line, and the header gives a record with an empty message instead
    of being dropped. *)
Lemma truncated_header_not_dropped :
  lint_pydocstyle ([xff; x0a] ++ b "b.py:7 in public class") =
    raise UnicodeDecodeError /\
  lint_pydocstyle (b "b.py:7 in public class" ++ [x0a]) =
    mkRun [mkAnnotation (u "error") (u "b.py") 7 1 (u "pydocstyle") (u "")
             (u "")] None.
Proof. split; vm_compute; reflexivity. Qed.

(** C10, amended: on output that is valid UTF-8, when the loop of the
    pydocstyle parser comes to the last line of the split output as a header
    (a line with a colon, and nothing after it, not even the empty line a
    final newline leaves), that header gives no record and the parser
    returns: it yields what it had yielded up to there and raises
    nothing. *)
Theorem truncated_record_dropped output lines ys h :
  reads output lines ->
  loop_reaches lines ys [h] ->
  contains COLON h = true ->
  lint_pydocstyle output = mkRun ys None.
Proof.
  intros (text & D & <-) L H.
  unfold lint_pydocstyle, with_lines. rewrite D.
  rewrite (loop_reaches_run _ _ _ L), (lint_pydocstyle_lines_step [h]).
  rewrite (pydocstyle_step_last h H). unfold yield_then. simpl.
  rewrite app_nil_r. reflexivity.
Qed.

Lemma truncated_record_dropped_witness :
  lint_pydocstyle
    (b "a.py:3 in public function" ++ [x0a] ++
     b "        D103: Missing docstring" ++ [x0a] ++
     b "b.py:7 in public class") =
  mkRun [mkAnnotation (u "error") (u "a.py") 3 1 (u "pydocstyle") (u "")
           (u "D103: Missing docstring")] None.
Proof.
  apply (truncated_record_dropped _
           [u "a.py:3 in public function";
            u "        D103: Missing docstring";
            u "b.py:7 in public class"] _ (u "b.py:7 in public class")).
  - eexists. split; vm_compute; reflexivity.
  - apply (reaches_turn _ [] _ _ _ (reaches_start _)).
    vm_compute. reflexivity.
  - vm_compute. reflexivity.
Defined.

(** * Further properties of the parsers *)

(** ** Splitting *)

Lemma split_nonempty sep s : split sep s <> [].
Proof.
  destruct s as [|c s]; simpl; [discriminate|].
  destruct (c =? sep); [discriminate|].
  destruct (split sep s); discriminate.
Qed.

Lemma split_cons_other sep c s :
  (c =? sep) = false ->
  exists h t, split sep s = h :: t /\ split sep (c :: s) = (c :: h) :: t.
Proof.
  intros H. simpl. rewrite H.
  destruct (split sep s) as [|h t] eqn:E.
  - exfalso. exact (split_nonempty sep s E).
  - eauto.
Qed.

(** Cutting at a separator: the pieces before it, then the pieces after. *)
Lemma split_app sep s1 s2 :
  split sep (s1 ++ sep :: s2) = split sep s1 ++ split sep s2.
Proof.
  induction s1 as [|c s1 IH].
  - simpl. rewrite N.eqb_refl. reflexivity.
  - destruct (c =? sep) eqn:E.
    + simpl. rewrite E, IH. reflexivity.
    + destruct (split_cons_other sep c s1 E) as (h & t & H1 & H2).
      rewrite H2. cbn [app].
      destruct (split_cons_other sep c (s1 ++ sep :: s2) E)
        as (h' & t' & H1' & H2').
      rewrite H2'. rewrite IH, H1 in H1'. injection H1' as <- <-.
      reflexivity.
Qed.

Lemma split_no_sep sep s : contains sep s = false -> split sep s = [s].
Proof.
  induction s as [|c s IH]; simpl; [reflexivity|].
  intros H. apply orb_false_iff in H as [H1 H2].
  rewrite H1, (IH H2). reflexivity.
Qed.

Lemma splitn_no_sep sep n s : contains sep s = false -> splitn sep n s = [s].
Proof.
  destruct n as [|n]; [destruct s; reflexivity|].
  induction s as [|c s IH]; simpl; [reflexivity|].
  intros H. apply orb_false_iff in H as [H1 H2].
  rewrite H1, (IH H2). reflexivity.
Qed.

Lemma splitn_O sep s : splitn sep 0 s = [s].
Proof. destruct s; reflexivity. Qed.

(** The first cut of a bounded split is at the first separator. *)
Lemma splitn_first sep n s1 s2 :
  contains sep s1 = false ->
  splitn sep (S n) (s1 ++ sep :: s2) = s1 :: splitn sep n s2.
Proof.
  induction s1 as [|c s1 IH]; intros H.
  - simpl. rewrite N.eqb_refl. reflexivity.
  - simpl in H. apply orb_false_iff in H as [H1 H2].
    cbn [app splitn]. rewrite H1, (IH H2). reflexivity.
Qed.

Lemma contains_app c s1 s2 :
  contains c (s1 ++ s2) = contains c s1 || contains c s2.
Proof.
  induction s1 as [|d s1 IH]; simpl; [reflexivity|].
  rewrite IH, orb_assoc. reflexivity.
Qed.

Lemma contains_In c s : contains c s = true <-> In c s.
Proof.
  induction s as [|d s IH]; simpl; [split; [discriminate | tauto]|].
  rewrite orb_true_iff, N.eqb_eq, IH. tauto.
Qed.

(** No piece of a split holds a character the whole does not hold. *)
Lemma split_contains sep c s :
  contains c s = false ->
  Forall (fun l => contains c l = false) (split sep s).
Proof.
  induction s as [|d s IH]; simpl; intros H.
  - repeat constructor.
  - apply orb_false_iff in H as [H1 H2]. specialize (IH H2).
    destruct (d =? sep).
    + constructor; [reflexivity | assumption].
    + destruct (split sep s) as [|h t]; [repeat constructor; simpl|].
      * rewrite H1. reflexivity.
      * inversion IH as [|? ? Hh Ht]; subst.
        constructor; [simpl; rewrite H1, Hh; reflexivity | assumption].
Qed.

Lemma lstrip_contains c s :
  contains c s = false -> contains c (lstrip s) = false.
Proof.
  induction s as [|d s IH]; simpl; [reflexivity|].
  intros H. destruct (isspace d); [|exact H].
  apply orb_false_iff in H as [_ H]. apply IH, H.
Qed.

Lemma contains_rev c s : contains c (rev s) = contains c s.
Proof.
  induction s as [|d s IH]; simpl; [reflexivity|].
  rewrite contains_app, IH. simpl. rewrite orb_false_r, orb_comm.
  reflexivity.
Qed.

Lemma strip_contains c s :
  contains c s = false -> contains c (strip s) = false.
Proof.
  intros H. unfold strip, rstrip.
  rewrite contains_rev. apply lstrip_contains.
  rewrite contains_rev. apply lstrip_contains, H.
Qed.

(** ** The decoder and ASCII bytes *)

Lemma utf8_lead_ok x st : utf8_lead x = LBegin st -> dstate_ok st.
Proof.
  unfold utf8_lead.
  repeat match goal with
         | |- context [if ?c then _ else _] => destruct c eqn:?
         end;
    intros [= <-]; try discriminate; simpl;
    rewrite ?N.leb_le, ?N.leb_gt, ?N.ltb_ge, ?N.ltb_lt, ?N.eqb_eq,
      ?N.eqb_neq in *; lia.
Qed.

Lemma utf8_lead_char x c : utf8_lead x = LChar c -> c = x /\ x < 0x80.
Proof.
  unfold utf8_lead.
  repeat match goal with
         | |- context [if ?c then _ else _] => destruct c eqn:?
         end;
    intros [= <-]. rewrite N.leb_le in *. lia.
Qed.

Lemma utf8_lead_ascii x : x < 0x80 -> utf8_lead x = LChar x.
Proof.
  intros H. unfold utf8_lead.
  destruct (N.leb_spec x 0x7F); [reflexivity | lia].
Qed.

Lemma on_error_inv e r text :
  on_error e r = Ok text ->
  e = Replace /\ exists t, r = Ok t /\ text = 0xFFFD :: t.
Proof.
  destruct e; simpl; [discriminate|].
  intros H. apply cons_ok_inv in H as (t & -> & ->). eauto.
Qed.

(** An ASCII character of the decoded text was a byte of the input: the
    longer sequences and the replacement character are all beyond ASCII. *)
Lemma utf8_go_ascii_origin e c bs :
  c < 0x80 ->
  forall st text,
    dstate_ok st -> utf8_go e st bs = Ok text -> In c text -> In c bs.
Proof.
  intros Hc. induction bs as [|x bs IH]; intros st text Hst.
  - destruct st; simpl.
    + intros [= <-] [].
    + intros H. apply on_error_inv in H as (_ & t & [= <-] & ->).
      intros [<-|[]]. lia.
  - rewrite utf8_go_cons. cbv zeta.
    assert (Hstart : forall text,
               utf8_start e x (utf8_go e DStart bs)
                 (fun st' => utf8_go e st' bs) = Ok text ->
               In c text -> In c (x :: bs)).
    { intros t0. unfold utf8_start.
      destruct (utf8_lead x) as [c0|st'|] eqn:L.
      - apply utf8_lead_char in L as [-> _].
        intros H. apply cons_ok_inv in H as (t & H & ->).
        intros [<-|Hin]; [left; reflexivity|].
        right. exact (IH DStart t I H Hin).
      - intros H Hin. right.
        exact (IH st' t0 (utf8_lead_ok _ _ L) H Hin).
      - intros H. apply on_error_inv in H as (_ & t & H & ->).
        intros [<-|Hin]; [lia|]. right. exact (IH DStart t I H Hin). }
    destruct st as [|need acc lo hi]; [apply Hstart|].
    destruct Hst as [Hlo Hacc].
    destruct ((lo <=? x) && (x <=? hi)) eqn:R.
    + apply andb_true_iff in R as [R1 R2]. apply N.leb_le in R1, R2.
      destruct need as [|[|n]]; [contradiction| |].
      * intros H. apply cons_ok_inv in H as (t & H & ->).
        intros [<-|Hin]; [lia|]. right. exact (IH DStart t I H Hin).
      * intros H Hin. right. refine (IH _ text _ H Hin).
        simpl. split; [lia|]. destruct n; lia.
    + intros H. apply on_error_inv in H as (_ & t & H & ->).
      intros [<-|Hin]; [lia|]. exact (Hstart t H Hin).
Qed.

Lemma In_to_N_colon output :
  In COLON (map Byte.to_N output) -> In x3a output.
Proof.
  intros H. apply in_map_iff in H as (y & E & H).
  assert (Y : Byte.of_N (Byte.to_N y) = Some y) by apply Byte.of_to_N.
  rewrite E in Y. vm_compute in Y. injection Y as <-. exact H.
Qed.

(** No colon among the bytes, no colon in the text. *)
Lemma decode_no_colon e output text :
  ~ In x3a output -> decode e output = Ok text ->
  contains COLON text = false.
Proof.
  intros H D. destruct (contains COLON text) eqn:C; [|reflexivity].
  exfalso. apply H, In_to_N_colon. apply contains_In in C.
  refine (utf8_go_ascii_origin e COLON _ _ DStart text I D C).
  reflexivity.
Qed.

Lemma cons_ok_bind {A B} (a : A) (r : result (list A)) (r2 : result B)
    (f : list A -> B -> list A) :
  (forall l y, f (a :: l) y = a :: f l y) ->
  cons_ok a (t1 <- r ;; t2 <- r2 ;; Ok (f t1 t2)) =
  (t1 <- cons_ok a r ;; t2 <- r2 ;; Ok (f t1 t2)).
Proof.
  intros H. destruct r as [l|e]; [|reflexivity].
  destruct r2 as [y|e]; [|reflexivity]. simpl. rewrite H. reflexivity.
Qed.

Lemma on_error_bind e (r : result str) (r2 : result str) x :
  on_error e (t1 <- r ;; t2 <- r2 ;; Ok (t1 ++ x :: t2)) =
  (t1 <- on_error e r ;; t2 <- r2 ;; Ok (t1 ++ x :: t2)).
Proof.
  destruct e; [reflexivity|]. simpl. apply cons_ok_bind. reflexivity.
Qed.

(** An ASCII byte always ends what came before it: the text of the whole is
    the text of the bytes before, the character, and the text of the bytes
    after, decoded on their own. *)
Lemma utf8_go_app_ascii e x b1 :
  x < 0x80 ->
  forall st b2,
    dstate_ok st ->
    utf8_go e st (b1 ++ x :: b2) =
    (t1 <- utf8_go e st b1 ;;
     t2 <- utf8_go e DStart b2 ;;
     Ok (t1 ++ x :: t2)).
Proof.
  intros Hx. induction b1 as [|y b1 IH]; intros st b2 Hst.
  - cbn [app]. rewrite utf8_go_cons. cbv zeta.
    unfold utf8_start. rewrite (utf8_lead_ascii x Hx).
    destruct st as [|need acc lo hi].
    + simpl. destruct (utf8_go e DStart b2); reflexivity.
    + destruct Hst as [Hlo _].
      replace (lo <=? x) with false by (symmetry; apply N.leb_gt; lia).
      cbn [andb]. destruct e; [reflexivity|]. simpl.
      destruct (utf8_go Replace DStart b2); reflexivity.
  - cbn [app]. rewrite !utf8_go_cons. cbv zeta.
    assert (Hstart :
      utf8_start e y (utf8_go e DStart (b1 ++ x :: b2))
        (fun st' => utf8_go e st' (b1 ++ x :: b2)) =
      (t1 <- utf8_start e y (utf8_go e DStart b1)
               (fun st' => utf8_go e st' b1) ;;
       t2 <- utf8_go e DStart b2 ;;
       Ok (t1 ++ x :: t2))).
    { unfold utf8_start. destruct (utf8_lead y) as [c0|st'|] eqn:L.
      - rewrite (IH DStart b2 I). apply cons_ok_bind. reflexivity.
      - apply IH. exact (utf8_lead_ok _ _ L).
      - rewrite (IH DStart b2 I). apply on_error_bind. }
    destruct st as [|need acc lo hi]; [exact Hstart|].
    destruct Hst as [Hlo Hacc].
    destruct ((lo <=? y) && (y <=? hi)) eqn:R.
    + apply andb_true_iff in R as [R1 R2]. apply N.leb_le in R1, R2.
      destruct need as [|[|n]]; [contradiction| |].
      * rewrite (IH DStart b2 I). apply cons_ok_bind. reflexivity.
      * apply IH. simpl. split; [lia|]. destruct n; lia.
    + rewrite Hstart. apply on_error_bind.
Qed.

(** A newline byte in the output: the text before it, a newline, the text
    after it. *)
Lemma decode_newline e o1 o2 :
  decode e (o1 ++ x0a :: o2) =
  (t1 <- decode e o1 ;; t2 <- decode e o2 ;; Ok (t1 ++ NL :: t2)).
Proof.
  unfold decode. rewrite map_app. cbn [map].
  apply (utf8_go_app_ascii e (Byte.to_N x0a) _ eq_refl DStart _ I).
Qed.

(** ** Lines without a colon *)

Lemma lint_flake8_lines_no_colon lines :
  Forall (fun l => contains COLON l = false) lines ->
  lint_flake8_lines lines = done.
Proof.
  induction 1 as [|l lines H _ IH]; simpl; [reflexivity|].
  rewrite H. exact IH.
Qed.

Lemma lint_mypy_lines_no_colon lines :
  Forall (fun l => contains COLON l = false) lines ->
  lint_mypy_lines lines = done.
Proof.
  induction 1 as [|l lines H _ IH]; simpl; [reflexivity|].
  rewrite H. exact IH.
Qed.

Lemma lint_pylint_lines_no_colon lines :
  Forall (fun l => contains COLON l = false) lines ->
  lint_pylint_lines lines = done.
Proof.
  induction 1 as [|l lines H _ IH]; simpl; [reflexivity|].
  rewrite H. exact IH.
Qed.

Lemma lint_pydocstyle_lines_no_colon lines :
  Forall (fun l => contains COLON l = false) lines ->
  lint_pydocstyle_lines lines = done.
Proof.
  induction 1 as [|l lines H _ IH]; simpl; [reflexivity|].
  rewrite H. exact IH.
Qed.

Lemma lint_black_errors_lines_no_colon lines :
  Forall (fun l => contains COLON l = false) lines ->
  lint_black_errors_lines lines = done.
Proof.
  induction 1 as [|l lines H _ IH]; simpl; [reflexivity|].
  rewrite (strip_contains _ _ H), orb_true_r. exact IH.
Qed.

(** X1: an output in which the byte [":"] does not occur gives no record
    and no exception: for pylint whatever the bytes are, for flake8, mypy,
    pydocstyle and the black stderr parser when it is valid UTF-8. *)
Theorem no_colon_no_record (output : list byte) :
  ~ In x3a output ->
  lint_pylint output = done /\
  (valid_utf8 output ->
   lint_flake8 output = done /\ lint_mypy output = done /\
   lint_pydocstyle output = done /\ lint_black_errors output = done).
Proof.
  intros H. split.
  - unfold lint_pylint, with_lines.
    destruct (decode_Replace_total output) as [text D]. rewrite D.
    apply lint_pylint_lines_no_colon, split_contains.
    exact (decode_no_colon _ _ _ H D).
  - intros [text D].
    pose proof (split_contains NL COLON text (decode_no_colon _ _ _ H D))
      as L.
    unfold lint_flake8, lint_mypy, lint_pydocstyle, lint_black_errors,
      with_lines. rewrite D.
    repeat split.
    + apply lint_flake8_lines_no_colon, L.
    + apply lint_mypy_lines_no_colon, L.
    + apply lint_pydocstyle_lines_no_colon, L.
    + apply lint_black_errors_lines_no_colon, L.
Qed.

Lemma no_colon_no_record_witness :
  lint_pylint (b "rated 10/10" ++ [xff; x0a]) = done /\
  lint_flake8 (b "All done!") = done /\ lint_mypy (b "All done!") = done /\
  lint_pydocstyle (b "All done!") = done /\
  lint_black_errors (b "All done!") = done.
Proof.
  split.
  - refine (proj1 (no_colon_no_record _ _)).
    simpl. intros H. repeat destruct H as [H|H]; try discriminate H.
    exact H.
  - refine (proj2 (no_colon_no_record _ _) _).
    + simpl. intros H. repeat destruct H as [H|H]; try discriminate H.
      exact H.
    + eexists. vm_compute. reflexivity.
Defined.

(** ** Line by line *)

Lemma yield_then_assoc ys g h :
  raised g = None ->
  yield_then (yielded (yield_then ys g)) h =
  yield_then ys (yield_then (yielded g) h).
Proof. intros _. unfold yield_then. simpl. rewrite app_assoc. reflexivity. Qed.

Lemma try_yield_app body next h :
  (forall e, body = Raise e -> e = ValueError) ->
  yield_then (yielded (try_yield body next)) h =
  try_yield body (yield_then (yielded next) h).
Proof.
  intros Hb. destruct body as [a|e]; simpl.
  - unfold yield_then. simpl. reflexivity.
  - rewrite (Hb e eq_refl). reflexivity.
Qed.

Lemma lint_flake8_lines_app l1 l2 :
  lint_flake8_lines (l1 ++ l2) =
  yield_then (yielded (lint_flake8_lines l1)) (lint_flake8_lines l2).
Proof.
  induction l1 as [|l l1 IH]; simpl; [symmetry; apply yield_then_nil|].
  destruct (negb (contains COLON l)); [exact IH|].
  rewrite IH. symmetry. apply try_yield_app, flake8_line_ValueError.
Qed.

Lemma lint_mypy_lines_app l1 l2 :
  lint_mypy_lines (l1 ++ l2) =
  yield_then (yielded (lint_mypy_lines l1)) (lint_mypy_lines l2).
Proof.
  induction l1 as [|l l1 IH]; simpl; [symmetry; apply yield_then_nil|].
  destruct (negb (contains COLON l)); [exact IH|].
  rewrite IH. symmetry. apply try_yield_app, mypy_line_ValueError.
Qed.

Lemma lint_pylint_lines_app l1 l2 :
  lint_pylint_lines (l1 ++ l2) =
  yield_then (yielded (lint_pylint_lines l1)) (lint_pylint_lines l2).
Proof.
  induction l1 as [|l l1 IH]; simpl; [symmetry; apply yield_then_nil|].
  destruct (negb (contains COLON l)); [exact IH|].
  rewrite IH. symmetry. apply try_yield_app, pylint_line_ValueError.
Qed.

(** X2: pylint's output is read line by line, whatever the bytes: the
    records of two outputs joined by a newline are the records of the first
    followed by the records of the second. Bytes that are not UTF-8, or a
    line that cannot be parsed, never touch another line. *)
Theorem pylint_line_by_line (o1 o2 : list byte) :
  lint_pylint (o1 ++ x0a :: o2) =
  yield_then (yielded (lint_pylint o1)) (lint_pylint o2).
Proof.
  unfold lint_pylint, with_lines. rewrite decode_newline.
  destruct (decode_Replace_total o1) as [t1 ->].
  destruct (decode_Replace_total o2) as [t2 ->]. simpl.
  rewrite split_app. apply lint_pylint_lines_app.
Qed.

(** X3: the same for flake8 and mypy, which decode strictly, when both
    outputs are valid UTF-8. *)
Theorem strict_line_by_line (o1 o2 : list byte) :
  valid_utf8 o1 -> valid_utf8 o2 ->
  lint_flake8 (o1 ++ x0a :: o2) =
    yield_then (yielded (lint_flake8 o1)) (lint_flake8 o2) /\
  lint_mypy (o1 ++ x0a :: o2) =
    yield_then (yielded (lint_mypy o1)) (lint_mypy o2).
Proof.
  intros [t1 D1] [t2 D2].
  unfold lint_flake8, lint_mypy, with_lines.
  rewrite decode_newline, D1, D2. simpl. rewrite split_app.
  split; [apply lint_flake8_lines_app | apply lint_mypy_lines_app].
Qed.

Lemma strict_line_by_line_witness :
  lint_flake8 (b "a.py:1:2: E1 x" ++ x0a :: b "b.py:3:4: E2 y") =
    yield_then (yielded (lint_flake8 (b "a.py:1:2: E1 x")))
      (lint_flake8 (b "b.py:3:4: E2 y")) /\
  lint_mypy (b "a.py:1:2: E1 x" ++ x0a :: b "b.py:3:4: E2 y") =
    yield_then (yielded (lint_mypy (b "a.py:1:2: E1 x")))
      (lint_mypy (b "b.py:3:4: E2 y")).
Proof.
  apply strict_line_by_line; eexists; vm_compute; reflexivity.
Defined.

(** ** Well-formed lines *)

Lemma strip_has_colon l :
  contains COLON (strip l) = true -> contains COLON l = true.
Proof.
  intros H. destruct (contains COLON l) eqn:E; [reflexivity|].
  rewrite (strip_contains _ _ E) in H. discriminate H.
Qed.

Lemma splitn_fields f n c m :
  contains COLON f = false -> contains COLON n = false ->
  contains COLON c = false ->
  splitn COLON 3 (f ++ COLON :: n ++ COLON :: c ++ COLON :: m) = [f; n; c; m].
Proof.
  intros Hf Hn Hc.
  rewrite (splitn_first _ _ _ _ Hf), (splitn_first _ _ _ _ Hn),
    (splitn_first _ _ _ _ Hc), splitn_O.
  reflexivity.
Qed.

Lemma fields_have_colon l f rest :
  strip l = f ++ COLON :: rest -> negb (contains COLON l) = false.
Proof.
  intros H. rewrite strip_has_colon; [reflexivity|].
  rewrite H, contains_app. simpl. apply orb_true_r.
Qed.

(** X4: a line that, once trimmed, reads [file:line:col:message], with no
    colon in the first three fields and numbers in the second and third,
    gives exactly one record, in flake8 and in pylint, with these fields.
    The message is everything after the third colon, further colons
    included; flake8 trims it, pylint keeps it as it is. *)
Theorem flake8_pylint_fields (l f n c m : str) (vn vc : Z) :
  strip l = f ++ COLON :: n ++ COLON :: c ++ COLON :: m ->
  contains COLON f = false -> contains COLON n = false ->
  contains COLON c = false ->
  int n = Ok vn -> int c = Ok vc ->
  lint_flake8_lines [l] =
    mkRun [mkAnnotation (u "error") f vn vc (u "flake8") (u "") (strip m)]
      None /\
  lint_pylint_lines [l] =
    mkRun [mkAnnotation (u "error") f vn vc (u "pylint") (u "") m] None.
Proof.
  intros Hl Hf Hn Hc In Ic.
  cbn [lint_flake8_lines lint_pylint_lines].
  rewrite (fields_have_colon l f _ Hl).
  unfold flake8_line, pylint_line.
  rewrite Hl, (splitn_fields f n c m Hf Hn Hc). simpl.
  rewrite In, Ic. split; reflexivity.
Qed.

Lemma flake8_pylint_fields_witness :
  lint_flake8_lines [u "  src/a.py:12:80: E501 line too long: 91 > 79  "] =
    mkRun [mkAnnotation (u "error") (u "src/a.py") 12 80 (u "flake8") (u "")
             (u "E501 line too long: 91 > 79")] None /\
  lint_pylint_lines [u "  src/a.py:12:80: E501 line too long: 91 > 79  "] =
    mkRun [mkAnnotation (u "error") (u "src/a.py") 12 80 (u "pylint") (u "")
             (u " E501 line too long: 91 > 79")] None.
Proof.
  apply (flake8_pylint_fields _ (u "src/a.py") (u "12") (u "80")
           (u " E501 line too long: 91 > 79"));
    vm_compute; reflexivity.
Defined.

(** X5: a line that, once trimmed, reads [file:line:level:message] gives
    exactly one mypy record: the level normalised, column 1, and as message
    everything after the third colon, trimmed. *)
Theorem mypy_fields (l f n lv m : str) (vn : Z) :
  strip l = f ++ COLON :: n ++ COLON :: lv ++ COLON :: m ->
  contains COLON f = false -> contains COLON n = false ->
  contains COLON lv = false ->
  int n = Ok vn ->
  lint_mypy_lines [l] =
    mkRun [mkAnnotation (mypy_level lv) f vn 1 (u "mypy") (u "") (strip m)]
      None.
Proof.
  intros Hl Hf Hn Hc In.
  cbn [lint_mypy_lines].
  rewrite (fields_have_colon l f _ Hl).
  unfold mypy_line.
  rewrite Hl, (splitn_fields f n lv m Hf Hn Hc). simpl.
  rewrite In. reflexivity.
Qed.

Lemma mypy_fields_witness :
  lint_mypy_lines [u "src/a.py:7: warning: unused 'type: ignore'"] =
    mkRun [mkAnnotation (u "warning") (u "src/a.py") 7 1 (u "mypy") (u "")
             (u "unused 'type: ignore'")] None.
Proof.
  apply (mypy_fields _ (u "src/a.py") (u "7") (u " warning")
           (u " unused 'type: ignore'"));
    vm_compute; reflexivity.
Defined.

(** ** Severity, source and title *)

Lemma mypy_level_in_LEVELS raw : In (mypy_level raw) LEVELS.
Proof.
  unfold mypy_level.
  destruct (str_eqb (strip raw) (u "note")).
  - simpl. tauto.
  - destruct (in_LEVELS (strip raw)) eqn:E.
    + apply in_LEVELS_In, E.
    + simpl. tauto.
Qed.

Lemma Forall_yield_then (P : Annotation -> Prop) ys g :
  Forall P ys -> Forall P (yielded g) -> Forall P (yielded (yield_then ys g)).
Proof. intros H1 H2. simpl. apply Forall_app. split; assumption. Qed.

Lemma flake8_line_tags l a :
  flake8_line l = Ok a ->
  severity a = u "error" /\ source a = u "flake8" /\ title a = u "".
Proof.
  unfold flake8_line.
  destruct (unpack4 _) as [[[[f n] c] m]|e]; simpl; [|discriminate].
  destruct (int n); simpl; [|discriminate].
  destruct (int c); simpl; [|discriminate].
  intros [= <-]. repeat split.
Qed.

Lemma pylint_line_tags l a :
  pylint_line l = Ok a ->
  severity a = u "error" /\ source a = u "pylint" /\ title a = u "".
Proof.
  unfold pylint_line.
  destruct (unpack4 _) as [[[[f n] c] m]|e]; simpl; [|discriminate].
  destruct (int n); simpl; [|discriminate].
  destruct (int c); simpl; [|discriminate].
  intros [= <-]. repeat split.
Qed.

Lemma mypy_line_tags l a :
  mypy_line l = Ok a ->
  In (severity a) LEVELS /\ source a = u "mypy" /\ title a = u "".
Proof.
  unfold mypy_line.
  destruct (unpack4 _) as [[[[f n] c] m]|e]; simpl; [|discriminate].
  destruct (int n); simpl; [|discriminate].
  intros [= <-]. repeat split. apply mypy_level_in_LEVELS.
Qed.

Lemma black_error_line_tags l a :
  black_error_line l = Ok a ->
  In (severity a) LEVELS /\ source a = u "black".
Proof.
  unfold black_error_line.
  destruct (unpack6 _) as [[[[[[lv hd] ms] ln] ch] inf]|e]; simpl;
    [|discriminate].
  destruct (rpartition SPACE hd) as [[h s] f].
  destruct (int ln); simpl; [|discriminate].
  destruct (int ch); simpl; [|discriminate].
  intros [= <-]. simpl. split; [|reflexivity].
  destruct (in_LEVELS (strip lv)) eqn:E.
  - apply in_LEVELS_In, E.
  - right. right. left. reflexivity.
Qed.

Lemma lint_flake8_lines_tags lines :
  Forall (fun a => severity a = u "error" /\ source a = u "flake8" /\
                   title a = u "")
    (yielded (lint_flake8_lines lines)).
Proof.
  induction lines as [|l lines IH]; simpl; [constructor|].
  destruct (negb (contains COLON l)); [assumption|].
  apply yielded_try_yield; [apply flake8_line_tags | assumption].
Qed.

Lemma lint_pylint_lines_tags lines :
  Forall (fun a => severity a = u "error" /\ source a = u "pylint" /\
                   title a = u "")
    (yielded (lint_pylint_lines lines)).
Proof.
  induction lines as [|l lines IH]; simpl; [constructor|].
  destruct (negb (contains COLON l)); [assumption|].
  apply yielded_try_yield; [apply pylint_line_tags | assumption].
Qed.

Lemma lint_mypy_lines_tags lines :
  Forall (fun a => In (severity a) LEVELS /\ source a = u "mypy" /\
                   title a = u "")
    (yielded (lint_mypy_lines lines)).
Proof.
  induction lines as [|l lines IH]; simpl; [constructor|].
  destruct (negb (contains COLON l)); [assumption|].
  apply yielded_try_yield; [apply mypy_line_tags | assumption].
Qed.

Lemma lint_pydocstyle_lines_tags lines :
  Forall (fun a => severity a = u "error" /\ source a = u "pydocstyle" /\
                   title a = u "")
    (yielded (lint_pydocstyle_lines lines)).
Proof.
  remember (List.length lines) as n eqn:Hn.
  revert lines Hn.
  induction n as [n IH] using lt_wf_ind. intros lines Hn.
  destruct lines as [|h rest]; simpl; [constructor|].
  simpl in Hn.
  destruct (negb (contains COLON h)).
  { eapply IH; [|reflexivity]. lia. }
  destruct (unpack2 _) as [[f ln]|e] eqn:E.
  - destruct rest as [|msg rest']; [constructor|].
    apply yielded_try_yield.
    + intros a. destruct (int ln); simpl; [|discriminate].
      intros [= <-]. repeat split.
    + eapply IH; [|reflexivity]. simpl in Hn. lia.
  - destruct (is_ValueError e); [|constructor].
    eapply IH; [|reflexivity]. lia.
Qed.

Lemma lint_black_errors_lines_tags lines :
  Forall (fun a => In (severity a) LEVELS /\ source a = u "black")
    (yielded (lint_black_errors_lines lines)).
Proof.
  induction lines as [|l lines IH]; simpl; [constructor|].
  destruct (negb (truthy (strip l)) || negb (contains COLON (strip l)));
    [assumption|].
  destruct (black_error_line (strip l)) as [a|e] eqn:E; [|constructor].
  apply Forall_yield_then; [|assumption].
  constructor; [apply (black_error_line_tags _ _ E) | constructor].
Qed.

Lemma flush_tags t ttl st :
  Forall (fun a => severity a = u "error" /\ source a = tool_name t /\
                   title a = ttl)
    (flush (tool_name t) ttl st).
Proof.
  unfold flush. destruct (truthy (cur_file st) && truthy (buffer st));
    repeat constructor.
Qed.

Lemma diff_loop_tags t lines :
  forall st,
    Forall (fun a => severity a = u "error" /\ source a = tool_name t /\
                     (title a = title_at_file t \/ title a = title_at_hunk t))
      (yielded (diff_loop t st lines)).
Proof.
  induction lines as [|l lines IH]; intros st; simpl; [constructor|].
  assert (H : Forall (fun a => severity a = u "error" /\
                               source a = tool_name t /\
                               (title a = title_at_file t \/
                                title a = title_at_hunk t))
                (fst (diff_step t st l))).
  { unfold diff_step.
    destruct (startswith (u "+++ ") l); [constructor|].
    destruct (startswith (u "--- ") l).
    - eapply Forall_impl; [|apply flush_tags]. simpl. tauto.
    - destruct (startswith (u "@@") l); [|constructor].
      eapply Forall_impl; [|apply flush_tags]. simpl. tauto. }
  destruct (diff_step t st l) as [ys [st'|e]]; simpl in *.
  - apply Forall_app. split; [assumption | apply IH].
  - rewrite app_nil_r. assumption.
Qed.

(** X6: every record carries a severity of the closed set and the name of
    the parser that made it. flake8, pylint, pydocstyle and the diff
    scanners always say ["error"], mypy and the black stderr parser say one
    of [LEVELS]; the line parsers leave the title empty, and a diff record
    has one of the two titles of its tool. *)
Theorem record_tags (output : list byte) :
  Forall (fun a => severity a = u "error" /\ source a = u "flake8" /\
                   title a = u "") (yielded (lint_flake8 output)) /\
  Forall (fun a => In (severity a) LEVELS /\ source a = u "mypy" /\
                   title a = u "") (yielded (lint_mypy output)) /\
  Forall (fun a => severity a = u "error" /\ source a = u "pylint" /\
                   title a = u "") (yielded (lint_pylint output)) /\
  Forall (fun a => severity a = u "error" /\ source a = u "pydocstyle" /\
                   title a = u "") (yielded (lint_pydocstyle output)) /\
  Forall (fun a => In (severity a) LEVELS /\ source a = u "black")
    (yielded (lint_black_errors output)) /\
  Forall (fun a => severity a = u "error" /\ source a = u "isort" /\
                   (title a = u "isort alteration" \/
                    title a = u "isort altteration"))
    (yielded (lint_isort_diffs output)) /\
  Forall (fun a => severity a = u "error" /\ source a = u "black" /\
                   title a = u "Black alteration")
    (yielded (lint_black_diffs output)).
Proof.
  repeat split.
  - apply yielded_with_lines, lint_flake8_lines_tags.
  - apply yielded_with_lines, lint_mypy_lines_tags.
  - apply yielded_with_lines, lint_pylint_lines_tags.
  - apply yielded_with_lines, lint_pydocstyle_lines_tags.
  - apply yielded_with_lines, lint_black_errors_lines_tags.
  - apply yielded_with_lines. intros lines.
    apply (diff_loop_tags isort lines diff_init).
  - apply yielded_with_lines. intros lines.
    eapply Forall_impl; [|apply (diff_loop_tags black lines diff_init)].
    simpl. tauto.
Qed.

(** ** The diff scanners: what a record holds *)

Lemma diff_loop_message t lines :
  forall st,
    (buffer st = [] \/ exists m, buffer st = m ++ [NL]) ->
    Forall (fun a => file a <> [] /\ exists m, message a = m ++ [NL])
      (yielded (diff_loop t st lines)).
Proof.
  induction lines as [|l lines IH]; intros st B; simpl; [constructor|].
  assert (F : forall name ttl,
             Forall (fun a => file a <> [] /\ exists m, message a = m ++ [NL])
               (flush name ttl st)).
  { intros name ttl. unfold flush.
    destruct (cur_file st) as [|c f] eqn:Ef; [constructor|].
    destruct (buffer st) as [|d buf] eqn:Eb; [constructor|].
    simpl. constructor; [|constructor]. simpl. split; [discriminate|].
    destruct B as [B|B]; [discriminate | exact B]. }
  unfold diff_step.
  destruct (startswith (u "+++ ") l).
  { rewrite yield_then_nil. apply IH, B. }
  destruct (startswith (u "--- ") l).
  { destruct (header_file l) as [f|e]; simpl.
    - apply Forall_app. split; [apply F|]. apply IH. left. reflexivity.
    - rewrite app_nil_r. apply F. }
  destruct (startswith (u "@@") l).
  { destruct (hunk_line l) as [v|e]; simpl.
    - apply Forall_app. split; [apply F|]. apply IH. left. reflexivity.
    - rewrite app_nil_r. apply F. }
  rewrite yield_then_nil. apply IH. right. simpl.
  exists (buffer st ++ l). rewrite <- app_assoc. reflexivity.
Qed.

(** X7: a diff record always names a file and always has a message: neither
    is empty, and the message ends with a newline (it is made of whole
    lines). *)
Theorem diff_record_filled (t : diff_tool) (output : list byte) :
  Forall (fun a => file a <> [] /\ exists m, message a = m ++ [NL])
    (yielded (lint_diffs t output)).
Proof.
  apply yielded_with_lines. intros lines.
  apply diff_loop_message. left. reflexivity.
Qed.

(** X8: the lines that start with ["+++ "] play no part: the scanner gives
    the same result with and without them. *)
Theorem plus_lines_ignored (t : diff_tool) (st : diff_state)
    (lines : list str) :
  diff_loop t st (filter (fun l => negb (startswith (u "+++ ") l)) lines) =
  diff_loop t st lines.
Proof.
  revert st. induction lines as [|l lines IH]; intros st; [reflexivity|].
  cbn [filter]. destruct (startswith (u "+++ ") l) eqn:E; cbn [negb].
  - cbn [diff_loop]. unfold diff_step. rewrite E, yield_then_nil. apply IH.
  - cbn [diff_loop]. destruct (diff_step t st l) as [ys [st'|e]];
      [rewrite IH|]; reflexivity.
Qed.

(** ** The diff scanners: how many records *)

Lemma diff_step_not_header t st l :
  is_header l = false ->
  exists buf,
    diff_step t st l = ([], Ok (mkState (cur_file st) (cur_line st) buf)).
Proof.
  unfold is_header, diff_step. intros H.
  destruct (startswith (u "+++ ") l).
  { exists (buffer st). destruct st; reflexivity. }
  cbn [negb andb] in H. apply orb_false_iff in H as [-> ->]. eauto.
Qed.

Lemma flush_length name ttl st : (List.length (flush name ttl st) <= 1)%nat.
Proof.
  unfold flush. destruct (truthy (cur_file st) && truthy (buffer st));
    simpl; lia.
Qed.

Lemma diff_step_length t st l :
  (List.length (fst (diff_step t st l)) <= 1)%nat /\
  (cur_file st = [] -> fst (diff_step t st l) = []).
Proof.
  unfold diff_step.
  destruct (startswith (u "+++ ") l); [simpl; split; [lia | reflexivity]|].
  destruct (startswith (u "--- ") l);
    [split; [apply flush_length | intros H; unfold flush; rewrite H;
                                  reflexivity]|].
  destruct (startswith (u "@@") l);
    [split; [apply flush_length | intros H; unfold flush; rewrite H;
                                  reflexivity]|].
  simpl. split; [lia | reflexivity].
Qed.

Lemma diff_loop_count t lines :
  forall st,
    (List.length (yielded (diff_loop t st lines))
     <= List.length (filter is_header lines))%nat.
Proof.
  induction lines as [|l lines IH]; intros st; simpl; [lia|].
  destruct (is_header l) eqn:H.
  - pose proof (proj1 (diff_step_length t st l)) as L.
    destruct (diff_step t st l) as [ys [st'|e]]; simpl in *.
    + rewrite length_app. specialize (IH st'). lia.
    + rewrite app_nil_r. lia.
  - destruct (diff_step_not_header t st l H) as [buf ->].
    rewrite yield_then_nil. apply IH.
Qed.

Lemma diff_loop_count_no_file t lines :
  forall st,
    cur_file st = [] ->
    (List.length (yielded (diff_loop t st lines))
     <= pred (List.length (filter is_header lines)))%nat.
Proof.
  induction lines as [|l lines IH]; intros st F; simpl; [lia|].
  destruct (is_header l) eqn:H.
  - pose proof (proj2 (diff_step_length t st l) F) as L.
    destruct (diff_step t st l) as [ys [st'|e]]; simpl in *; subst ys.
    + simpl. apply diff_loop_count.
    + simpl. lia.
  - destruct (diff_step_not_header t st l H) as [buf ->].
    rewrite yield_then_nil. apply IH. exact F.
Qed.

(** X9: a diff with [n] header lines (file headers and hunk headers) gives
    at most [n - 1] records: a header flushes at most the one block before
    it, and the first header has nothing to flush. *)
Theorem diff_record_count (t : diff_tool) (output : list byte)
    (lines : list str) :
  reads output lines ->
  (List.length (yielded (lint_diffs t output))
   <= pred (List.length (filter is_header lines)))%nat.
Proof.
  intros R. rewrite (lint_diffs_reads t output lines R).
  apply diff_loop_count_no_file. reflexivity.
Qed.

Lemma diff_record_count_witness :
  (List.length
     (yielded
        (lint_diffs black
           (b "--- a.py" ++ [x09] ++ b "2024" ++ [x0a] ++
            b "@@ -5,2 +5,3 @@" ++ [x0a] ++ b "+y" ++ [x0a] ++
            b "@@ -20,1 +21,2 @@" ++ [x0a] ++ b "+z")))
   <= 2)%nat.
Proof.
  apply (diff_record_count black _
           [u "--- a.py" ++ [TAB] ++ u "2024"; u "@@ -5,2 +5,3 @@"; u "+y";
            u "@@ -20,1 +21,2 @@"; u "+z"]).
  eexists. split; vm_compute; reflexivity.
Defined.

(** ** The diff scanners: when they raise *)

Lemma header_file_ValueError l e : header_file l = Raise e -> e = ValueError.
Proof.
  unfold header_file. intros H.
  apply bind_Raise in H as [H | ([f x] & _ & H)];
    [eapply unpack2_ValueError; eassumption | discriminate].
Qed.

Lemma hunk_line_ValueError l e : hunk_line l = Raise e -> e = ValueError.
Proof.
  unfold hunk_line. intros H.
  apply bind_Raise in H as [H | ([[[a s] c] d] & _ & H)];
    [eapply unpack4_ValueError; eassumption|].
  apply bind_Raise in H as [H | ([n m] & _ & H)];
    [eapply unpack2_ValueError; eassumption|].
  apply bind_Raise in H as [H | (v & _ & H)];
    [eapply int_ValueError; eassumption | discriminate].
Qed.

Lemma startswith_plus l :
  startswith (u "+++ ") l = true ->
  startswith (u "--- ") l = false /\ startswith (u "@@") l = false.
Proof.
  change (u "@@") with [64; 64]. change (u "+++ ") with [43; 43; 43; 32].
  change (u "--- ") with [45; 45; 45; 32].
  destruct l as [|c l]; cbn [startswith]; [discriminate|].
  destruct (N.eqb_spec 43 c) as [<-|]; cbn [andb]; [|discriminate].
  intros _. split; reflexivity.
Qed.

(** Whether a line parses can be told by running the two parsers. *)
Lemma classic_parses l : parses l \/ ~ parses l.
Proof.
  unfold parses.
  destruct (startswith (u "--- ") l).
  - destruct (header_file l) as [f|e].
    + left. split; [eauto | discriminate].
    + right. intros [H _]. destruct (H eq_refl) as [f Hf]. discriminate Hf.
  - destruct (startswith (u "@@") l).
    + destruct (hunk_line l) as [v|e].
      * left. split; [discriminate | eauto].
      * right. intros [_ H]. destruct (H eq_refl eq_refl) as [v Hv].
        discriminate Hv.
    + left. split; discriminate.
Qed.

(** One turn of the scanner raises exactly when its line is a header it
    cannot parse, and then it raises [ValueError]. *)
Lemma diff_step_parses t st l :
  (parses l -> exists st', snd (diff_step t st l) = Ok st') /\
  (~ parses l -> snd (diff_step t st l) = Raise ValueError).
Proof.
  unfold parses, diff_step.
  destruct (startswith (u "+++ ") l) eqn:P.
  { destruct (startswith_plus l P) as [-> ->].
    split; [intros _; exists st; reflexivity|]. intros H. exfalso. apply H.
    split; discriminate. }
  destruct (startswith (u "--- ") l) eqn:F.
  { cbn [snd]. destruct (header_file l) as [f|e] eqn:E.
    - split; [intros _; eexists; reflexivity|].
      intros H. exfalso. apply H.
      split; [eauto | discriminate].
    - rewrite (header_file_ValueError _ _ E).
      split; [|reflexivity].
      intros [H _]. destruct (H eq_refl) as [f Hf]. discriminate Hf. }
  destruct (startswith (u "@@") l) eqn:A.
  { cbn [snd]. destruct (hunk_line l) as [v|e] eqn:E.
    - split; [intros _; eexists; reflexivity|].
      intros H. exfalso. apply H.
      split; [discriminate | eauto].
    - rewrite (hunk_line_ValueError _ _ E).
      split; [|reflexivity].
      intros [_ H]. destruct (H eq_refl eq_refl) as [v Hv]. discriminate Hv. }
  split; [intros _; eexists; reflexivity|]. intros H. exfalso. apply H.
  split; discriminate.
Qed.

Lemma diff_loop_raises t lines :
  forall st,
    (raised (diff_loop t st lines) = None <-> Forall parses lines) /\
    (raised (diff_loop t st lines) = None \/
     raised (diff_loop t st lines) = Some ValueError).
Proof.
  induction lines as [|l lines IH]; intros st; simpl.
  - split; [split; [constructor | reflexivity] | left; reflexivity].
  - destruct (diff_step_parses t st l) as [Hp Hn].
    destruct (diff_step t st l) as [ys [st'|e]]; simpl in *.
    + destruct (IH st') as [IH1 IH2]. split; [|exact IH2].
      rewrite IH1. split.
      * intros H. constructor; [|exact H].
        destruct (classic_parses l) as [Y|N]; [exact Y|].
        specialize (Hn N). discriminate Hn.
      * intros H. inversion H; assumption.
    + split.
      * split; [discriminate|]. intros H. inversion H as [|? ? Y _]; subst.
        destruct (Hp Y) as [st' E]. discriminate E.
      * right. destruct (classic_parses l) as [Y|N].
        -- destruct (Hp Y) as [st' E]. discriminate E.
        -- specialize (Hn N). injection Hn as ->. reflexivity.
Qed.

(** X10: on valid UTF-8 a diff scanner returns exactly when every header
    line of the output can be parsed (a file header with one tab after the
    name, a hunk header of four fields whose range has a comma and a
    number); otherwise it ends with [ValueError], never with another
    exception. *)
Theorem diff_raises_iff (t : diff_tool) (output : list byte)
    (lines : list str) :
  reads output lines ->
  (raised (lint_diffs t output) = None <-> Forall parses lines) /\
  (raised (lint_diffs t output) = None \/
   raised (lint_diffs t output) = Some ValueError).
Proof.
  intros R. rewrite (lint_diffs_reads t output lines R).
  apply diff_loop_raises.
Qed.

Lemma diff_raises_iff_witness :
  raised (lint_diffs isort
            (b "--- a.py" ++ [x09] ++ b "2024" ++ [x0a] ++
             b "@@ -5,2 +5,3 @@" ++ [x0a] ++ b "+y")) = None.
Proof.
  refine (proj2 (proj1 (diff_raises_iff isort _
           [u "--- a.py" ++ [TAB] ++ u "2024"; u "@@ -5,2 +5,3 @@"; u "+y"]
           _)) _).
  - eexists. split; vm_compute; reflexivity.
  - repeat constructor; try discriminate.
    + intros _. eexists. vm_compute. reflexivity.
    + intros _ _. eexists. vm_compute. reflexivity.
Defined.

(** ** A pydocstyle report *)

Lemma splitn_one sep s :
  (contains sep s = false /\ splitn sep 1 s = [s]) \/
  exists s1 s2,
    s = s1 ++ sep :: s2 /\ contains sep s1 = false /\
    splitn sep 1 s = [s1; s2].
Proof.
  destruct (contains sep s) eqn:C.
  - right. induction s as [|c s IH]; [discriminate|].
    simpl in C. destruct (c =? sep) eqn:E.
    + apply N.eqb_eq in E. subst c. exists [], s.
      simpl. rewrite N.eqb_refl, splitn_O. auto.
    + simpl in C. destruct (IH C) as (s1 & s2 & -> & H1 & H2).
      exists (c :: s1), s2. simpl. rewrite E, H1.
      simpl in H2. rewrite (splitn_first sep 0 s1 s2 H1), splitn_O.
      auto.
  - left. split; [reflexivity | apply splitn_no_sep, C].
Qed.

Lemma first_word_colon h :
  contains COLON (hd [] (splitn SPACE 1 h)) = true ->
  contains COLON h = true.
Proof.
  destruct (splitn_one SPACE h) as [[_ ->] | (s1 & s2 & -> & _ & ->)];
    simpl; [tauto|].
  intros H. rewrite contains_app, H. reflexivity.
Qed.

Lemma names_colon h f v : names h f v -> contains COLON h = true.
Proof.
  intros (n & H & _). apply first_word_colon.
  destruct (contains COLON (hd [] (splitn SPACE 1 h))) eqn:C;
    [reflexivity|].
  rewrite (split_no_sep _ _ C) in H. discriminate H.
Qed.

(** X11: a pydocstyle report is a list of pairs of lines, a header that
    names a file and a line number, then the message. Each pair gives one
    record, in order, with the message trimmed, and the parser returns. The
    message lines are never taken for headers, colons or not. *)
Theorem pydocstyle_report (pairs : list (str * str)) :
  Forall (fun p => exists f v, names (fst p) f v) pairs ->
  raised (lint_pydocstyle_lines (report_lines pairs)) = None /\
  Forall2
    (fun p a =>
       exists f v,
         names (fst p) f v /\
         a = mkAnnotation (u "error") f v 1 (u "pydocstyle") (u "")
               (strip (snd p)))
    pairs (yielded (lint_pydocstyle_lines (report_lines pairs))).
Proof.
  intros H. split; [apply lint_pydocstyle_lines_returns|].
  induction H as [|[h m] pairs (f & v & N) _ IH]; [constructor|].
  cbn [report_lines flat_map fst snd app lint_pydocstyle_lines].
  fold (report_lines pairs).
  rewrite (names_colon h f v N). cbn [negb].
  pose proof N as (n & S & I). cbn [fst] in S.
  rewrite S. cbn [unpack2]. rewrite I. cbn [bind try_yield yield_then].
  cbn [yielded app]. constructor; [|exact IH].
  exists f, v. split; [exact N | reflexivity].
Qed.

Lemma pydocstyle_report_witness :
  Forall2
    (fun p a =>
       exists f v,
         names (fst p) f v /\
         a = mkAnnotation (u "error") f v 1 (u "pydocstyle") (u "")
               (strip (snd p)))
    [(u "a.py:3 in public function `f`:", u "        D103: Missing docstring");
     (u "b.py:1 at module level:", u "        D100: Missing docstring")]
    (yielded
       (lint_pydocstyle_lines
          [u "a.py:3 in public function `f`:";
           u "        D103: Missing docstring";
           u "b.py:1 at module level:";
           u "        D100: Missing docstring"])).
Proof.
  refine (proj2 (pydocstyle_report
                   [(u "a.py:3 in public function `f`:",
                     u "        D103: Missing docstring");
                    (u "b.py:1 at module level:",
                     u "        D100: Missing docstring")] _)).
  repeat constructor.
  - exists (u "a.py"), 3%Z, (u "3"). split; vm_compute; reflexivity.
  - exists (u "b.py"), 1%Z, (u "1"). split; vm_compute; reflexivity.
Defined.

(** ** The black stderr parser *)

Lemma rpartition_go_none sep s :
  contains sep s = false -> rpartition_go sep s = None.
Proof.
  induction s as [|c s IH]; simpl; [reflexivity|].
  intros H. apply orb_false_iff in H as [H1 H2].
  rewrite (IH H2), H1. reflexivity.
Qed.

(** The last word of a header. *)
Lemma rpartition_last sep s1 s2 :
  contains sep s2 = false ->
  rpartition sep (s1 ++ sep :: s2) = (s1, [sep], s2).
Proof.
  intros H. unfold rpartition.
  assert (G : rpartition_go sep (s1 ++ sep :: s2) = Some (s1, s2)).
  { induction s1 as [|c s1 IH]; simpl.
    - rewrite (rpartition_go_none _ _ H), N.eqb_refl. reflexivity.
    - rewrite IH. reflexivity. }
  rewrite G. reflexivity.
Qed.

(** X12: a line of black's stderr that, once trimmed, reads
    [level:header file:title:line:col:info] (no colon in the first five
    fields, the file being the last word of the second) gives exactly one
    record: the level if it is one of [LEVELS] and ["error"] otherwise, that
    file, the two numbers, the title and the info trimmed, colons of the
    info included. *)
Theorem black_error_fields (l lv hdr f msg ln ch info : str) (vl vc : Z) :
  strip l = lv ++ COLON :: (hdr ++ SPACE :: f) ++ COLON :: msg ++ COLON ::
            ln ++ COLON :: ch ++ COLON :: info ->
  contains COLON lv = false -> contains COLON hdr = false ->
  contains COLON f = false -> contains SPACE f = false ->
  contains COLON msg = false ->
  contains COLON ln = false -> contains COLON ch = false ->
  int ln = Ok vl -> int ch = Ok vc ->
  lint_black_errors_lines [l] =
  mkRun [mkAnnotation
           (if in_LEVELS (strip lv) then strip lv else u "error")
           f vl vc (u "black") (strip msg) (strip info)] None.
Proof.
  intros Hl Hlv Hhdr Hf Hsp Hmsg Hln Hch Il Ic.
  cbn [lint_black_errors_lines]. rewrite Hl.
  assert (T : truthy (lv ++ COLON :: (hdr ++ SPACE :: f) ++ COLON :: msg ++
                      COLON :: ln ++ COLON :: ch ++ COLON :: info) = true).
  { destruct lv; reflexivity. }
  rewrite T. rewrite contains_app. cbn [contains].
  rewrite N.eqb_refl, orb_true_r. cbn [negb orb].
  unfold black_error_line.
  assert (Hhf : contains COLON (hdr ++ SPACE :: f) = false).
  { rewrite contains_app, Hhdr. simpl. exact Hf. }
  rewrite (splitn_first _ _ _ _ Hlv), (splitn_first _ _ _ _ Hhf),
    (splitn_first _ _ _ _ Hmsg), (splitn_first _ _ _ _ Hln),
    (splitn_first _ _ _ _ Hch), splitn_O.
  cbn [unpack6 bind]. rewrite (rpartition_last _ _ _ Hsp).
  rewrite Il, Ic. reflexivity.
Qed.

Lemma black_error_fields_witness :
  lint_black_errors_lines
    [u "error: cannot format src/a.py: Cannot parse: 12:4: x = (a: b"] =
  mkRun [mkAnnotation (u "error") (u "src/a.py") 12 4 (u "black")
           (u "Cannot parse") (u "x = (a: b")] None.
Proof.
  apply (black_error_fields _ (u "error") (u " cannot format")
           (u "src/a.py") (u " Cannot parse") (u " 12") (u "4")
           (u " x = (a: b")); vm_compute; reflexivity.
Defined.

Lemma splitn_length sep s :
  forall n,
    List.length (splitn sep n s) = S (Nat.min n (count_occ N.eq_dec s sep)).
Proof.
  induction s as [|c s IH]; intros n.
  - destruct n; reflexivity.
  - destruct n as [|n]; [reflexivity|].
    cbn [splitn count_occ].
    destruct (N.eqb_spec c sep) as [->|Hc].
    + destruct (N.eq_dec sep sep) as [_|X]; [|congruence].
      cbn [List.length]. rewrite IH. reflexivity.
    + destruct (N.eq_dec c sep) as [X|_]; [congruence|].
      specialize (IH (S n)).
      destruct (splitn sep (S n) s) as [|h t]; [discriminate IH|].
      exact IH.
Qed.

Lemma count_occ_contains c s :
  (0 < count_occ N.eq_dec s c)%nat -> contains c s = true.
Proof.
  intros H. apply contains_In. apply (count_occ_In N.eq_dec). exact H.
Qed.

Lemma unpack6_length l :
  List.length l <> 6%nat -> unpack6 l = Raise ValueError.
Proof.
  destruct l as [|x1 [|x2 [|x3 [|x4 [|x5 [|x6 [|x7 l]]]]]]]; simpl;
    try reflexivity.
  intros H. exfalso. apply H. reflexivity.
Qed.

(** X13: the black stderr parser has no handler. After lines without a
    colon (blank ones included), which it skips, a line that holds a colon
    but fewer than five ends it with [ValueError]: nothing of that line or
    of the lines after it is yielded. *)
Theorem black_errors_short_line (pre rest : list str) (l : str) :
  Forall (fun x => contains COLON (strip x) = false) pre ->
  (0 < count_occ N.eq_dec (strip l) COLON < 5)%nat ->
  lint_black_errors_lines (pre ++ l :: rest) = raise ValueError.
Proof.
  intros Hpre [H0 H5].
  induction Hpre as [|x pre Hx _ IH]; cbn [app lint_black_errors_lines].
  - pose proof (count_occ_contains _ _ H0) as C. rewrite C.
    assert (T : truthy (strip l) = true).
    { destruct (strip l); [discriminate C | reflexivity]. }
    rewrite T. cbn [negb orb].
    unfold black_error_line. rewrite unpack6_length; [reflexivity|].
    rewrite splitn_length. lia.
  - rewrite Hx, orb_true_r. exact IH.
Qed.

Lemma black_errors_short_line_witness :
  lint_black_errors_lines
    [u ""; u "Oh no!"; u "error: cannot format a.py: INTERNAL ERROR";
     u "error: cannot format b.py: Cannot parse: 1:5: x"] =
  raise ValueError.
Proof.
  apply (black_errors_short_line [u ""; u "Oh no!"]
           [u "error: cannot format b.py: Cannot parse: 1:5: x"]
           (u "error: cannot format a.py: INTERNAL ERROR")).
  - repeat constructor.
  - vm_compute. split; lia.
Defined.

(** ** The toolchain *)

Lemma yield_from_returns g1 g2 :
  raised g1 = None ->
  yield_from g1 g2 = mkRun (yielded g1 ++ yielded g2) (raised g2).
Proof. intros H. unfold yield_from. rewrite H. reflexivity. Qed.

Lemma Forall_yield_from (P : Annotation -> Prop) g1 g2 :
  Forall P (yielded g1) -> Forall P (yielded g2) ->
  Forall P (yielded (yield_from g1 g2)).
Proof.
  intros H1 H2. unfold yield_from. destruct (raised g1); [exact H1|].
  simpl. apply Forall_app. split; assumption.
Qed.

Lemma lint_pylint_returns output : raised (lint_pylint output) = None.
Proof.
  unfold lint_pylint, with_lines.
  destruct (decode_Replace_total output) as [text ->].
  apply lint_pylint_lines_returns.
Qed.

Lemma line_parsers_return_all output :
  valid_utf8 output ->
  raised (lint_flake8 output) = None /\
  raised (lint_mypy output) = None /\
  raised (lint_pydocstyle output) = None.
Proof.
  intros [text H].
  unfold lint_flake8, lint_mypy, lint_pydocstyle, with_lines. rewrite H.
  split; [apply lint_flake8_lines_returns|].
  split; [apply lint_mypy_lines_returns|].
  apply lint_pydocstyle_lines_returns.
Qed.

(** X14: when the isort and black parsers return and the outputs of flake8,
    mypy and pydocstyle are valid UTF-8 (pylint's may be anything), [run]
    yields the records of all the tools in the fixed order isort, black
    stderr, black diff, flake8, mypy, pylint, pydocstyle, bandit, and ends
    as the bandit generator ends. *)
Theorem run_in_order (rs : tool_results) (lint_bandit : gen_run) :
  raised (lint_isort_diffs (stdout (isort_result rs))) = None ->
  raised (lint_black_errors (stderr (black_result rs))) = None ->
  raised (lint_black_diffs (stdout (black_result rs))) = None ->
  valid_utf8 (stdout (flake8_result rs)) ->
  valid_utf8 (stdout (mypy_result rs)) ->
  valid_utf8 (stdout (pydocstyle_result rs)) ->
  run rs lint_bandit =
  mkRun
    (yielded (lint_isort_diffs (stdout (isort_result rs))) ++
     (yielded (lint_black_errors (stderr (black_result rs))) ++
      yielded (lint_black_diffs (stdout (black_result rs)))) ++
     yielded (lint_flake8 (stdout (flake8_result rs))) ++
     yielded (lint_mypy (stdout (mypy_result rs))) ++
     yielded (lint_pylint (stdout (pylint_result rs))) ++
     yielded (lint_pydocstyle (stdout (pydocstyle_result rs))) ++
     yielded lint_bandit)
    (raised lint_bandit).
Proof.
  intros Hi Hbe Hbd Vf Vm Vd.
  destruct (line_parsers_return_all (stdout (flake8_result rs)) Vf)
    as (Rf & _ & _).
  destruct (line_parsers_return_all (stdout (mypy_result rs)) Vm)
    as (_ & Rm & _).
  destruct (line_parsers_return_all (stdout (pydocstyle_result rs)) Vd)
    as (_ & _ & Rd).
  pose proof (lint_pylint_returns (stdout (pylint_result rs))) as Rp.
  unfold run, lint_isort, lint_black.
  rewrite (yield_from_returns (lint_pydocstyle _) _ Rd).
  rewrite (yield_from_returns (lint_pylint _) _ Rp).
  rewrite (yield_from_returns (lint_mypy _) _ Rm).
  rewrite (yield_from_returns (lint_flake8 _) _ Rf).
  rewrite (yield_from_returns (lint_black_errors _) _ Hbe).
  rewrite (yield_from_returns (mkRun _ _) _ Hbd).
  rewrite (yield_from_returns (lint_isort_diffs _) _ Hi).
  reflexivity.
Qed.

Lemma run_in_order_witness :
  run (mkResults
         (mkCompleted (b "") (b ""))
         (mkCompleted (b "") (b "All done!"))
         (mkCompleted (b "a.py:1:2: E1 x") (b ""))
         (mkCompleted (b "a.py:3: error: y") (b ""))
         (mkCompleted (b "a.py:4:5: C1 z" ++ [xff]) (b ""))
         (mkCompleted (b "") (b "")))
      done =
  mkRun
    [mkAnnotation (u "error") (u "a.py") 1 2 (u "flake8") (u "") (u "E1 x");
     mkAnnotation (u "error") (u "a.py") 3 1 (u "mypy") (u "") (u "y");
     mkAnnotation (u "error") (u "a.py") 4 5 (u "pylint") (u "")
       (u " C1 z" ++ [0xFFFD])]
    None.
Proof.
  refine (run_in_order
            (mkResults
               (mkCompleted (b "") (b ""))
               (mkCompleted (b "") (b "All done!"))
               (mkCompleted (b "a.py:1:2: E1 x") (b ""))
               (mkCompleted (b "a.py:3: error: y") (b ""))
               (mkCompleted (b "a.py:4:5: C1 z" ++ [xff]) (b ""))
               (mkCompleted (b "") (b "")))
            done _ _ _ _ _ _);
    try (vm_compute; reflexivity);
    eexists; vm_compute; reflexivity.
Defined.

Lemma yield_from_raises g1 g2 e :
  raised g1 = Some e -> yield_from g1 g2 = g1.
Proof. intros H. unfold yield_from. rewrite H. reflexivity. Qed.

Lemma yield_from_assoc g1 g2 g3 :
  yield_from (yield_from g1 g2) g3 = yield_from g1 (yield_from g2 g3).
Proof.
  unfold yield_from.
  destruct (raised g1) eqn:E1; [rewrite E1; reflexivity|].
  cbn [raised yield_then yielded].
  destruct (raised g2) eqn:E2; [reflexivity|].
  unfold yield_then. simpl. rewrite app_assoc. reflexivity.
Qed.

(** The generators before the first one that raises give all their records,
    that one gives its own, and the chain ends with its exception. *)
Lemma yield_from_chain (last : gen_run) before g after e :
  Forall (fun x => raised x = None) before ->
  raised g = Some e ->
  fold_right yield_from last (before ++ g :: after) =
  mkRun (flat_map yielded before ++ yielded g) (Some e).
Proof.
  intros Hb Hg. induction Hb as [|x before Hx _ IH]; cbn [app fold_right].
  - rewrite (yield_from_raises g _ e Hg). destruct g as [ys r].
    simpl in *. subst r. reflexivity.
  - rewrite IH. unfold yield_from. rewrite Hx.
    unfold yield_then. simpl. rewrite app_assoc. reflexivity.
Qed.

Lemma run_fold rs lint_bandit :
  run rs lint_bandit =
  fold_right yield_from lint_bandit
    (removelast (run_generators rs lint_bandit)).
Proof.
  unfold run, lint_isort, lint_black. cbn [run_generators removelast
                                           fold_right].
  rewrite yield_from_assoc. reflexivity.
Qed.

(** X15: a parser that raises ends [run] there. Taking the generators in
    the order of [run], if those before one of them return and that one
    raises, [run] yields exactly the records of those before it followed by
    its own, and ends with its exception: no tool after it contributes a
    record. *)
Theorem run_stops_at_first_raise (rs : tool_results) (lint_bandit : gen_run)
    (before after : list gen_run) (g : gen_run) (e : exn) :
  run_generators rs lint_bandit = before ++ g :: after ->
  Forall (fun x => raised x = None) before ->
  raised g = Some e ->
  run rs lint_bandit =
  mkRun (flat_map yielded before ++ yielded g) (Some e).
Proof.
  intros G Hb Hg. rewrite run_fold.
  destruct after as [|a after].
  - (* the one that raises is bandit, the last *)
    assert (R : removelast (run_generators rs lint_bandit) = before /\
                g = lint_bandit).
    { rewrite G, removelast_app by discriminate. cbn [removelast].
      rewrite app_nil_r. split; [reflexivity|].
      apply (f_equal (fun l => last l done)) in G.
      rewrite last_last in G. cbn in G. symmetry. exact G. }
    destruct R as [-> ->]. clear G.
    induction Hb as [|x before Hx _ IH]; cbn [fold_right flat_map app].
    + destruct lint_bandit as [ys r]. simpl in *. subst r. reflexivity.
    + rewrite IH. unfold yield_from. rewrite Hx.
      unfold yield_then. simpl. rewrite app_assoc. reflexivity.
  - assert (R : exists after',
                 removelast (run_generators rs lint_bandit)
                 = before ++ g :: after').
    { rewrite G, removelast_app by discriminate.
      exists (removelast (a :: after)). reflexivity. }
    destruct R as [after' ->].
    apply yield_from_chain; assumption.
Qed.

Lemma run_stops_at_first_raise_witness :
  run (mkResults
         (mkCompleted (b "") (b ""))
         (mkCompleted (b "")
            (b "error: cannot format a.py: Cannot parse: 1:5: x"))
         (mkCompleted [xff] (b ""))
         (mkCompleted (b "a.py:3: error: y") (b ""))
         (mkCompleted (b "") (b ""))
         (mkCompleted (b "") (b "")))
      done =
  mkRun [mkAnnotation (u "error") (u "a.py") 1 5 (u "black")
           (u "Cannot parse") (u "x")]
    (Some UnicodeDecodeError).
Proof.
  refine (run_stops_at_first_raise
            (mkResults
               (mkCompleted (b "") (b ""))
               (mkCompleted (b "")
                  (b "error: cannot format a.py: Cannot parse: 1:5: x"))
               (mkCompleted [xff] (b ""))
               (mkCompleted (b "a.py:3: error: y") (b ""))
               (mkCompleted (b "") (b ""))
               (mkCompleted (b "") (b "")))
            done
            [lint_isort_diffs (b "");
             lint_black_errors
               (b "error: cannot format a.py: Cannot parse: 1:5: x");
             lint_black_diffs (b "")]
            [lint_mypy (b "a.py:3: error: y"); lint_pylint (b "");
             lint_pydocstyle (b ""); done]
            (lint_flake8 [xff]) UnicodeDecodeError _ _ _).
  - reflexivity.
  - repeat constructor.
  - reflexivity.
Defined.

(** X16: if the records of bandit have a severity of the closed set, so
    has every record [run] yields, whatever the tools printed. *)
Theorem run_severity (rs : tool_results) (lint_bandit : gen_run) :
  Forall (fun a => In (severity a) LEVELS) (yielded lint_bandit) ->
  Forall (fun a => In (severity a) LEVELS) (yielded (run rs lint_bandit)).
Proof.
  intros Hb.
  assert (E : In (u "error") LEVELS) by (simpl; tauto).
  unfold run, lint_isort, lint_black.
  repeat apply Forall_yield_from; try exact Hb;
    apply yielded_with_lines; intros lines.
  - eapply Forall_impl; [|apply (diff_loop_tags isort lines diff_init)].
    intros a (-> & _). exact E.
  - eapply Forall_impl; [|apply lint_black_errors_lines_tags].
    intros a (S & _). exact S.
  - eapply Forall_impl; [|apply (diff_loop_tags black lines diff_init)].
    intros a (-> & _). exact E.
  - eapply Forall_impl; [|apply lint_flake8_lines_tags].
    intros a (-> & _). exact E.
  - eapply Forall_impl; [|apply lint_mypy_lines_tags].
    intros a (S & _). exact S.
  - eapply Forall_impl; [|apply lint_pylint_lines_tags].
    intros a (-> & _). exact E.
  - eapply Forall_impl; [|apply lint_pydocstyle_lines_tags].
    intros a (-> & _). exact E.
Qed.

Lemma run_severity_witness :
  Forall (fun a => In (severity a) LEVELS)
    (yielded
       (run (mkResults
               (mkCompleted (b "") (b "")) (mkCompleted (b "") (b ""))
               (mkCompleted (b "a.py:1:2: E1 x") (b ""))
               (mkCompleted (b "a.py:3: note: y") (b ""))
               (mkCompleted (b "") (b "")) (mkCompleted (b "") (b "")))
          done)).
Proof. apply run_severity. constructor. Defined.

(** ** [get_module_paths] *)

Section ModulePathsFacts.

Variable os_error : Type.
Variable sys_path : list str.
Variable listdir : str -> os_error + list str.
Variable isdir : str -> bool.
Variable path_join : str -> str -> str.

Lemma on_sys_path p :
  existsb (str_eqb p) sys_path = true <-> In p sys_path.
Proof.
  rewrite existsb_exists. split.
  - intros (q & Hq & E). apply str_eqb_eq in E. subst. exact Hq.
  - intros H. exists p. split; [exact H | apply str_eqb_refl].
Qed.

(** X17: folders none of which is on [sys.path] come back unchanged, in
    order, and the file system is not even looked at. *)
Theorem get_module_paths_unchanged (folders : list str) :
  Forall (fun p => ~ In p sys_path) folders ->
  get_module_paths os_error sys_path listdir isdir path_join folders =
  (folders, None).
Proof.
  induction 1 as [|p folders Hp _ IH]; simpl; [reflexivity|].
  destruct (existsb (str_eqb p) sys_path) eqn:E.
  - exfalso. apply Hp, on_sys_path, E.
  - rewrite IH. reflexivity.
Qed.

(** X18: every path yielded is either one of the folders given, not on
    [sys.path], or a directory found directly in a given folder that is
    on [sys.path]; and the generator fails only with the error of
    listing such a folder. *)
Theorem get_module_paths_sound (folders : list str) :
  (forall q,
     In q (fst (get_module_paths os_error sys_path listdir isdir path_join
                  folders)) ->
     (In q folders /\ ~ In q sys_path) \/
     exists p modules m,
       In p folders /\ In p sys_path /\ listdir p = inr modules /\
       In m modules /\ q = path_join p m /\ isdir q = true) /\
  (forall err,
     snd (get_module_paths os_error sys_path listdir isdir path_join
            folders) = Some err ->
     exists p, In p folders /\ In p sys_path /\ listdir p = inl err).
Proof.
  induction folders as [|p folders [IH1 IH2]]; simpl.
  - split; [intros q [] | discriminate].
  - destruct (existsb (str_eqb p) sys_path) eqn:E.
    + apply on_sys_path in E.
      destruct (listdir p) as [err|modules] eqn:L.
      * split; [intros q []|]. simpl. intros e [= <-]. eauto.
      * destruct (get_module_paths _ _ _ _ _ folders) as [ys e].
        simpl in *. split.
        -- intros q Hq. apply in_app_or in Hq as [Hq|Hq].
           ++ apply filter_In in Hq as [Hq D].
              apply in_map_iff in Hq as (m & <- & Hm).
              right. exists p, modules, m. auto 10.
           ++ destruct (IH1 q Hq) as [[H1 H2]|(p' & ms & m & H & R)];
                [left; auto|].
              right. exists p', ms, m. tauto.
        -- intros err He. destruct (IH2 err He) as (p' & H & R).
           exists p'. tauto.
    + assert (N : ~ In p sys_path).
      { intros H. apply on_sys_path in H. congruence. }
      destruct (get_module_paths _ _ _ _ _ folders) as [ys e].
      simpl in *. split.
      * intros q [<-|Hq]; [left; auto|].
        destruct (IH1 q Hq) as [[H1 H2]|(p' & ms & m & H & R)];
          [left; auto|].
        right. exists p', ms, m. tauto.
      * intros err He. destruct (IH2 err He) as (p' & H & R).
        exists p'. tauto.
Qed.

End ModulePathsFacts.

Lemma get_module_paths_unchanged_witness :
  get_module_paths unit [u "/usr/lib/python3"]
    (fun _ => inl tt) (fun _ => false) (fun p m => p ++ u "/" ++ m)
    [u "src/mewbot"; u "tests"] =
  ([u "src/mewbot"; u "tests"], None).
Proof.
  apply get_module_paths_unchanged.
  repeat constructor; simpl; intros [H|[]]; discriminate H.
Defined.

(** ** Headers of a diff *)

Lemma split_first sep s1 s2 :
  contains sep s1 = false ->
  split sep (s1 ++ sep :: s2) = s1 :: split sep s2.
Proof.
  intros H. rewrite split_app, (split_no_sep _ _ H). reflexivity.
Qed.

(** X19: a hunk header of four blank-separated fields whose second field
    is [start,count] gives the absolute value of [start], whatever its
    sign; when that field has no comma (the header of a one-line hunk, such
    as ["@@ -5 +5,2 @@"]) or when there is a fifth field (a section
    heading after the closing ["@@"]), it raises [ValueError]. *)
Theorem hunk_line_format (f1 start count f3 f4 trailer : str) (v : Z) :
  contains SPACE f1 = false -> contains SPACE start = false ->
  contains SPACE count = false -> contains SPACE f3 = false ->
  contains SPACE f4 = false ->
  contains COMMA start = false -> contains COMMA count = false ->
  int start = Ok v ->
  hunk_line (f1 ++ SPACE :: (start ++ COMMA :: count) ++ SPACE :: f3 ++
             SPACE :: f4) = Ok (Z.abs v) /\
  hunk_line (f1 ++ SPACE :: start ++ SPACE :: f3 ++ SPACE :: f4)
    = Raise ValueError /\
  hunk_line (f1 ++ SPACE :: (start ++ COMMA :: count) ++ SPACE :: f3 ++
             SPACE :: f4 ++ SPACE :: trailer) = Raise ValueError.
Proof.
  intros H1 Hs Hc H3 H4 Cs Cc I.
  assert (Hsc : contains SPACE (start ++ COMMA :: count) = false).
  { rewrite contains_app, Hs. simpl. exact Hc. }
  unfold hunk_line. repeat split.
  - rewrite (split_first _ _ _ H1), (split_first _ _ _ Hsc),
      (split_first _ _ _ H3), (split_no_sep _ _ H4).
    cbn [unpack4 bind].
    rewrite (split_first _ _ _ Cs), (split_no_sep _ _ Cc).
    cbn [unpack2 bind]. rewrite I. reflexivity.
  - rewrite (split_first _ _ _ H1), (split_first _ _ _ Hs),
      (split_first _ _ _ H3), (split_no_sep _ _ H4).
    cbn [unpack4 bind]. rewrite (split_no_sep _ _ Cs). reflexivity.
  - rewrite (split_first _ _ _ H1), (split_first _ _ _ Hsc),
      (split_first _ _ _ H3), (split_first _ _ _ H4).
    destruct (split SPACE trailer) as [|x xs] eqn:E;
      [exfalso; exact (split_nonempty _ _ E) | reflexivity].
Qed.

Lemma hunk_line_format_witness :
  hunk_line (u "@@ -12,5 +15,5 @@") = Ok 12%Z /\
  hunk_line (u "@@ -12 +15,5 @@") = Raise ValueError /\
  hunk_line (u "@@ -12,5 +15,5 @@ def f():") = Raise ValueError.
Proof.
  apply (hunk_line_format (u "@@") (u "-12") (u "5") (u "+15,5") (u "@@")
           (u "def f():") (-12)%Z); reflexivity.
Defined.

(** X20: a file header ["--- name<TAB>stamp"] gives the name, everything
    between the marker and the tab; without a tab, or with a second one,
    it raises [ValueError]. *)
Theorem header_file_format (name stamp more : str) :
  contains TAB name = false -> contains TAB stamp = false ->
  header_file (u "--- " ++ name ++ TAB :: stamp) = Ok name /\
  header_file (u "--- " ++ name) = Raise ValueError /\
  header_file (u "--- " ++ name ++ TAB :: stamp ++ TAB :: more)
    = Raise ValueError.
Proof.
  intros Hn Hs. unfold header_file.
  change (u "--- ") with [45; 45; 45; 32]. cbn [app skipn].
  repeat split.
  - rewrite (split_first _ _ _ Hn), (split_no_sep _ _ Hs). reflexivity.
  - rewrite (split_no_sep _ _ Hn). reflexivity.
  - rewrite (split_first _ _ _ Hn), (split_first _ _ _ Hs).
    destruct (split TAB more) as [|x xs] eqn:E;
      [exfalso; exact (split_nonempty _ _ E) | reflexivity].
Qed.

Lemma header_file_format_witness :
  header_file (u "--- src/a.py" ++ TAB :: u "2024-01-01") = Ok (u "src/a.py")
  /\ header_file (u "--- src/a.py") = Raise ValueError
  /\ header_file (u "--- src/a.py" ++ TAB :: u "2024-01-01" ++ TAB :: u "x")
     = Raise ValueError.
Proof.
  apply (header_file_format (u "src/a.py") (u "2024-01-01") (u "x"));
    reflexivity.
Defined.

(** ** A file block of any number of hunks *)

Lemma hunk_records_length t f last v buf hunks :
  List.length (hunk_records t f last v buf hunks) = S (List.length hunks).
Proof.
  revert v buf. induction hunks as [|k hunks IH]; intros v buf; simpl;
    [reflexivity|].
  rewrite IH. reflexivity.
Qed.

(** With a block pending in the buffer, each hunk header flushes the block
    before it, and the closing header flushes the last one. *)
Lemma diff_loop_hunks t f closing rest hunks :
  f <> [] -> header closing -> Forall no_header rest ->
  Forall well_formed hunks ->
  forall v buf,
    truthy buf = true ->
    yielded (diff_loop t (mkState f v buf)
               (hunk_lines hunks ++ closing :: rest)) =
    hunk_records t f (flush_title t closing) v buf hunks.
Proof.
  intros F Hc Hrest Hh.
  induction Hh as [|[[h vk] body] hunks (S & L & C & B) _ IH];
    intros v buf T.
  - cbn [hunk_lines flat_map app hunk_records].
    rewrite (diff_loop_closing t _ closing rest Hc Hrest).
    apply flush_full; assumption.
  - cbn [fst snd] in S, L, C, B.
    cbn [hunk_lines flat_map fst snd app hunk_records].
    fold (hunk_lines hunks).
    rewrite (diff_loop_cons t _ h _ _ _ (diff_step_hunk t _ h vk S L)).
    rewrite (flush_full _ _ f v buf F T). cbn [cur_file].
    rewrite <- app_assoc, (diff_loop_content t body C).
    cbn [cur_file cur_line buffer app yield_then yielded].
    f_equal. apply IH. apply body_text_truthy, B.
Qed.

(** X21: a file header followed by any number of well-formed hunks (each a
    header and at least one content line) and then by one more header line
    gives exactly one record per hunk, in order, each with the start line
    and the lines of its own hunk; the record of a hunk is made when the
    next header is read, and bears the title that goes with that header. *)
Theorem file_block (t : diff_tool) (output : list byte) (pre : list str)
    (fh f : str) (k : hunk) (hunks : list hunk) (closing : str)
    (rest : list str) :
  reads output (pre ++ fh :: hunk_lines (k :: hunks) ++ closing :: rest) ->
  Forall no_header pre ->
  startswith (u "--- ") fh = true -> header_file fh = Ok f -> f <> [] ->
  Forall well_formed (k :: hunks) ->
  header closing -> Forall no_header rest ->
  yielded (lint_diffs t output) =
    hunk_records t f (flush_title t closing) (snd (fst k))
      (body_text (snd k)) hunks /\
  List.length (yielded (lint_diffs t output)) = List.length (k :: hunks).
Proof.
  intros R Hpre Hfh Hf F Hh Hc Hrest.
  assert (E : yielded (lint_diffs t output) =
              hunk_records t f (flush_title t closing) (snd (fst k))
                (body_text (snd k)) hunks).
  { rewrite (lint_diffs_reads t output _ R).
    destruct (diff_loop_preamble t pre Hpre diff_init eq_refl)
      as ([f0 n0 buf0] & F0 & Rpre).
    simpl in F0. subst f0. rewrite Rpre.
    rewrite (diff_loop_cons t _ fh _ _ _ (diff_step_file t _ fh f Hfh Hf)).
    rewrite flush_no_file, yield_then_nil.
    inversion Hh as [|? ? Hk Hhs]; subst.
    destruct k as [[h vk] body]. destruct Hk as (S & L & C & B).
    cbn [fst snd] in S, L, C, B |- *.
    cbn [hunk_lines flat_map fst snd app]. fold (hunk_lines hunks).
    rewrite (diff_loop_cons t _ h _ _ _ (diff_step_hunk t _ h vk S L)).
    cbn [cur_file cur_line]. rewrite flush_empty_buffer, yield_then_nil.
    rewrite <- app_assoc, (diff_loop_content t body C).
    cbn [cur_file cur_line buffer app].
    apply (diff_loop_hunks t f closing rest hunks F Hc Hrest Hhs).
    apply body_text_truthy, B. }
  split; [exact E|]. rewrite E, hunk_records_length. reflexivity.
Qed.

Lemma file_block_witness :
  yielded
    (lint_diffs isort
       (b "--- a.py" ++ [x09] ++ b "2024" ++ [x0a] ++
        b "@@ -1,2 +1,2 @@" ++ [x0a] ++ b "-a" ++ [x0a] ++
        b "@@ -5,2 +5,3 @@" ++ [x0a] ++ b "+b" ++ [x0a] ++
        b "@@ -9,1 +9,2 @@" ++ [x0a] ++ b "+c" ++ [x0a] ++
        b "--- b.py" ++ [x09] ++ b "2024"))
  = [mkAnnotation (u "error") (u "a.py") 1 1 (u "isort")
       (u "isort altteration") (body_text [u "-a"]);
     mkAnnotation (u "error") (u "a.py") 5 1 (u "isort")
       (u "isort altteration") (body_text [u "+b"]);
     mkAnnotation (u "error") (u "a.py") 9 1 (u "isort")
       (u "isort alteration") (body_text [u "+c"])].
Proof.
  refine (proj1 (file_block isort _ [] (u "--- a.py" ++ [TAB] ++ u "2024")
                   (u "a.py") (u "@@ -1,2 +1,2 @@", 1%Z, [u "-a"])
                   [(u "@@ -5,2 +5,3 @@", 5%Z, [u "+b"]);
                    (u "@@ -9,1 +9,2 @@", 9%Z, [u "+c"])]
                   (u "--- b.py" ++ [TAB] ++ u "2024") []
                   _ _ _ _ _ _ _ _)).
  - eexists. split; vm_compute; reflexivity.
  - constructor.
  - reflexivity.
  - reflexivity.
  - discriminate.
  - repeat constructor; discriminate.
  - split; [reflexivity | left; reflexivity].
  - constructor.
Defined.

(** ** Lines with too few fields *)




Lemma get_module_paths_sound_witness :
  (In (u "src/mewbot") [u "src"; u "tests"] /\
   ~ In (u "src/mewbot") [u "src"]) \/
  exists p modules m,
    In p [u "src"; u "tests"] /\ In p [u "src"] /\
    (fun _ : str => inr [u "mewbot"; u "README"] : unit + list str) p
      = inr modules /\
    In m modules /\ u "src/mewbot" = p ++ u "/" ++ m /\
    str_eqb (u "src/mewbot") (u "src/mewbot") = true.
Proof.
  apply (proj1 (get_module_paths_sound unit [u "src"]
                  (fun _ => inr [u "mewbot"; u "README"])
                  (fun q => str_eqb q (u "src/mewbot"))
                  (fun p m => p ++ u "/" ++ m)
                  [u "src"; u "tests"]) (u "src/mewbot")).
  vm_compute. left. reflexivity.
Defined.
